(** * Pytubefix interactive downloader ([src/main.py]): a shallow embedding

    The script is one class, [YouTubeDownloader], that reads lines from an
    interactive prompt, switches between a sound and a video mode, and
    drives two external collaborators (the pytubefix extraction library and
    the ffmpeg encoder).  This development embeds the class method by
    method and proves the properties its specification states.

    Conventions.
    - A Python [str] is a [string]; a character is a code point in
      U+0000..U+00FF, and [str.strip], [str.lower], [int] follow CPython
      on that range.
    - Paths follow [posixpath].
    - The collaborators are not code of the repository: what a call to them
      returns is read from an environment record ([Env]), one field per
      call site, so that every outcome a call can have (a value, an
      exception) is covered by quantifying over the environment.
    - A Python [float] is an IEEE 754 binary64 number, as the Standard
      Library specifies them ([SpecFloat], precision 53, [emax] 1024);
      [int / int] is the correctly rounded quotient and raises
      [OverflowError] when it is out of range.
    - The polling thread of a video-mode merge runs while the encoder
      does; what it reads is a list of [readline()] results, and what it
      does is recorded in the trace after the start of the encoder. *)

From Stdlib Require Import Bool Ascii String List ZArith Lia SpecFloat.
From Stdlib Require Import DecimalString DecimalPos DecimalN DecimalZ.
Import ListNotations.
Open Scope string_scope.

(** ** Python string primitives *)

Module PyStr.

Definition chr_in (c : ascii) (lo hi : N) : bool :=
  ((lo <=? N_of_ascii c) && (N_of_ascii c <=? hi))%N.

(** [str.isspace] on one character: Unicode white space below U+0100. *)
Definition isspace (c : ascii) : bool :=
  chr_in c 9 13 || chr_in c 28 32 ||
  (N_of_ascii c =? 133)%N || (N_of_ascii c =? 160)%N.

Fixpoint lstrip (s : string) : string :=
  match s with
  | String c r => if isspace c then lstrip r else s
  | EmptyString => EmptyString
  end.

Fixpoint rstrip (s : string) : string :=
  match s with
  | String c r =>
      match rstrip r with
      | EmptyString => if isspace c then EmptyString else String c EmptyString
      | r' => String c r'
      end
  | EmptyString => EmptyString
  end.

(** [s.strip()] *)
Definition strip (s : string) : string := rstrip (lstrip s).

(** [c.lower()] for one character: A-Z, and the Latin-1 capitals
    U+00C0..U+00DE except the multiplication sign U+00D7. *)
Definition lower_char (c : ascii) : ascii :=
  if chr_in c 65 90
     || (chr_in c 192 222 && negb (N_of_ascii c =? 215)%N)
  then ascii_of_N (N_of_ascii c + 32)
  else c.

(** [s.lower()] *)
Fixpoint lower (s : string) : string :=
  match s with
  | String c r => String (lower_char c) (lower r)
  | EmptyString => EmptyString
  end.

(** [needle in hay] *)
Fixpoint contains (needle hay : string) : bool :=
  prefix needle hay ||
  match hay with
  | String _ r => contains needle r
  | EmptyString => false
  end.

Fixpoint drop (n : nat) (s : string) : string :=
  match n, s with
  | S k, String _ r => drop k r
  | _, _ => s
  end.

Fixpoint take_while (p : ascii -> bool) (s : string) : string :=
  match s with
  | String c r => if p c then String c (take_while p r) else EmptyString
  | EmptyString => EmptyString
  end.

(** [s.split(sep)] for a one-character separator: never empty. *)
Fixpoint split (sep : ascii) (s : string) : list string :=
  match s with
  | EmptyString => [EmptyString]
  | String c r =>
      if Ascii.eqb c sep then EmptyString :: split sep r
      else match split sep r with
           | p :: ps => String c p :: ps
           | [] => [String c EmptyString]
           end
  end.

Definition has_char (c : ascii) (s : string) : bool :=
  existsb (Ascii.eqb c) (list_ascii_of_string s).

(** *** [int(s)]: white space, a sign, decimal digits, single underscores
    between digits; anything else is a [ValueError] ([None]). *)
Definition digit_of (c : ascii) : option N :=
  if chr_in c 48 57 then Some (N_of_ascii c - 48)%N else None.

(** [prev] tells whether the previous character was a digit, which is
    where an underscore may stand. *)
Fixpoint int_digits (prev : bool) (acc : N) (s : string) : option N :=
  match s with
  | EmptyString => if prev then Some acc else None
  | String c r =>
      match digit_of c with
      | Some d => int_digits true (acc * 10 + d) r
      | None =>
          if Ascii.eqb c "_" && prev then
            match r with
            | String c' _ =>
                match digit_of c' with
                | Some _ => int_digits false acc r
                | None => None
                end
            | EmptyString => None
            end
          else None
      end
  end.

(** The white space [int] skips at both ends: tab to carriage return
    and the space, and the two white-space characters above U+007F, which
    [int] turns into spaces; U+001C..U+001F are not skipped. *)
Definition int_space (c : ascii) : bool :=
  chr_in c 9 13 || (N_of_ascii c =? 32)%N ||
  (N_of_ascii c =? 133)%N || (N_of_ascii c =? 160)%N.

Fixpoint lstrip_of (p : ascii -> bool) (s : string) : string :=
  match s with
  | String c r => if p c then lstrip_of p r else s
  | EmptyString => EmptyString
  end.

Fixpoint rstrip_of (p : ascii -> bool) (s : string) : string :=
  match s with
  | String c r =>
      match rstrip_of p r with
      | EmptyString => if p c then EmptyString else String c EmptyString
      | r' => String c r'
      end
  | EmptyString => EmptyString
  end.

(** The number of digits in [s]. *)
Fixpoint count_digits (s : string) : nat :=
  match s with
  | String c r =>
      match digit_of c with
      | Some _ => S (count_digits r)
      | None => count_digits r
      end
  | EmptyString => O
  end.

(** [sys.int_info.default_max_str_digits]: a decimal text of more digits
    is refused with a [ValueError]. *)
Definition int_max_str_digits : nat := 4300.

(** A sign and the digits. *)
Definition int_signed (t : string) : option Z :=
  match t with
  | String "-" r => option_map (fun n => (- Z.of_N n)%Z) (int_digits false 0 r)
  | String "+" r => option_map Z.of_N (int_digits false 0 r)
  | r => option_map Z.of_N (int_digits false 0 r)
  end.

Definition int (s : string) : option Z :=
  let t := rstrip_of int_space (lstrip_of int_space s) in
  if Nat.ltb int_max_str_digits (count_digits t) then None
  else int_signed t.


(** [str(n)] for a natural number and for an integer. *)
Definition str_of_N (n : N) : string := NilZero.string_of_uint (N.to_uint n).
Definition str_of_Z (z : Z) : string := NilZero.string_of_int (Z.to_int z).

(** [posixpath.join(a, b)] *)
Definition ends_with_slash (a : string) : bool :=
  match rev (list_ascii_of_string a) with
  | c :: _ => Ascii.eqb c "/"
  | [] => false
  end.

Definition path_join (a b : string) : string :=
  match b with
  | String "/" _ => b
  | _ => if (a =? EmptyString) || ends_with_slash a then a ++ b else a ++ "/" ++ b
  end.

End PyStr.

(** ** Regular expressions used by the script *)

Module Re.

(** The character class of the pattern of [_sanitize_filename]:
    backslash (92), slash (47), star (42), question mark (63), colon (58),
    double quote (34), angle brackets (60, 62), bar (124) and hash (35). *)
Definition illegal_codes : list N := [92; 47; 42; 63; 58; 34; 60; 62; 124; 35]%N.

Definition illegal (c : ascii) : bool :=
  existsb (N.eqb (N_of_ascii c)) illegal_codes.

(** [re.sub(cls, repl, s)] for a pattern that is one character class:
    every character of the class is a match and is replaced. *)
Fixpoint sub_class (cls : ascii -> bool) (repl s : string) : string :=
  match s with
  | String c r =>
      if cls c then repl ++ sub_class cls repl r
      else String c (sub_class cls repl r)
  | EmptyString => EmptyString
  end.

(** The class [[a-zA-Z0-9_-]]. *)
Definition id_char (c : ascii) : bool :=
  PyStr.chr_in c 97 122 || PyStr.chr_in c 65 90 || PyStr.chr_in c 48 57
  || Ascii.eqb c "_" || Ascii.eqb c "-".

(** [re.match] of the pattern [list=([a-zA-Z0-9_-]+)]: group 1 when the
    pattern matches at the start of [s]; the [+] is greedy. *)
Definition match_list_here (s : string) : option string :=
  if prefix "list=" s then
    match PyStr.take_while id_char (PyStr.drop 5 s) with
    | EmptyString => None
    | g => Some g
    end
  else None.

(** [re.search] of the same pattern: the leftmost match. *)
Fixpoint search_list (s : string) : option string :=
  match match_list_here s with
  | Some g => Some g
  | None =>
      match s with
      | String _ r => search_list r
      | EmptyString => None
      end
  end.

End Re.

(** ** [YouTubeDownloader._sanitize_filename] *)

Definition _sanitize_filename (title : string) : string :=
  Re.sub_class Re.illegal EmptyString title.


(** ** The world the script runs in *)

Definition nl : string := String (ascii_of_N 10) EmptyString.

(** What a call to a collaborator gives back: a value, or an exception
    whose message is [e]. *)
Inductive result (A : Type) : Type :=
| Ok (a : A)
| Err (e : string).
Arguments Ok {A} a.
Arguments Err {A} e.

(** A pytubefix [Stream]. [download] writes [output_path/filename] and
    returns that path; when it raises, [download_partial] tells whether
    the file it had opened is left behind. *)
Record Stream : Type := {
  resolution : string;
  download : result unit;
  download_partial : bool;
  stream_to_buffer : result string
}.

(** What [lang in yt.captions] and [yt.captions[lang].download(...)] do.
    [caption_file] is the name the library gives the file it writes in
    [output_path]. *)
Inductive Captions : Type :=
| CaptionsRaise (e : string)
| CaptionAbsent
| CaptionPresent (caption_file : string) (caption_download : result unit).

(** A pytubefix [YouTube] object. *)
Record YouTubeObj : Type := {
  yt_title : result string;
  yt_captions : string -> Captions;
  yt_video_stream : result (option Stream);
  yt_audio_only : result (option Stream);
  yt_length : result N
}.

(** A pytubefix [Playlist] object. *)
Record PlaylistObj : Type := {
  pl_title : result string;
  pl_video_urls : result (list string)
}.

(** One run of the encoder process: [Popen] raises, the process never
    exits, or it exits with a return code and an error output.  Exit code
    0 means that the output file, the last argument of the command, was
    written.  [progress] is what successive [readline()] calls on the
    progress log return to the polling thread (the empty string when
    nothing new has been written yet). *)
Inductive EncoderRun : Type :=
| PopenRaises (e : string)
| NeverExits
| Exited (returncode : Z) (stderr : string) (progress : list string).

Record Env : Type := {
  env_home : string;
  env_which_ffmpeg : bool;
  env_import_ok : string -> bool;
  env_platform_system : string;
  env_makedirs : string -> result unit;
  env_tempfile : result string;
  YouTube : string -> result YouTubeObj;
  Playlist : string -> result PlaylistObj;
  ffmpeg : list string -> EncoderRun
}.

(** Observable events, in the order they happen.  [Call_download_video]
    and [Call_download_playlist] mark an entry into [_download_video] and
    into [_download_playlist].  [Sleep] is a [sleep] of the main thread
    (line 214).  The last three are the polling thread's: a [sleep(0.1)]
    on an empty read (line 188), its end by an exception nothing catches
    (the traceback goes to the error output), and its being left behind,
    still polling, when the call goes on without joining it. *)
Inductive Event : Type :=
| Print (s : string)
| Prompt (s : string)
| Sleep (seconds : N)
| Exec (argv : list string)
| Call_download_video (url lang : string)
| Call_download_playlist (url : string)
| Thread_sleep
| Thread_died (e : string)
| Thread_left_polling.

Record State : Type := {
  self_path : string;
  self_mode : string;
  files : list string;
  dirs : list string;
  trace : list Event
}.

(** How a piece of the script ends: normally, by an [Exception] that
    propagates, by [exit()], or never (blocked on the encoder or on the
    polling thread). *)
Inductive Res (A : Type) : Type :=
| Ret (a : A) (st : State)
| Raise (e : string) (st : State)
| SysExit (st : State)
| Hang (st : State).
Arguments Ret {A} a st.
Arguments Raise {A} e st.
Arguments SysExit {A} st.
Arguments Hang {A} st.

Definition M (A : Type) : Type := State -> Res A.

Definition final_state {A} (r : Res A) : State :=
  match r with
  | Ret _ st | Raise _ st | SysExit st | Hang st => st
  end.

Definition returned {A} (r : Res A) : bool :=
  match r with Ret _ _ => true | _ => false end.

Definition ret {A} (a : A) : M A := fun st => Ret a st.

Definition bind {A B} (m : M A) (k : A -> M B) : M B :=
  fun st =>
    match m st with
    | Ret a st' => k a st'
    | Raise e st' => Raise e st'
    | SysExit st' => SysExit st'
    | Hang st' => Hang st'
    end.

Notation "x <- m ;; k" := (bind m (fun x => k))
  (at level 61, m at next level, right associativity).
Notation "m ;; k" := (bind m (fun _ => k))
  (at level 61, right associativity).

Definition raise {A} (e : string) : M A := fun st => Raise e st.
Definition sys_exit {A} : M A := fun st => SysExit st.
Definition hang {A} : M A := fun st => Hang st.

Definition lift {A} (r : result A) : M A :=
  match r with
  | Ok a => ret a
  | Err e => raise e
  end.

(** [try: body  except Exception as e: handler e] *)
Definition try_except {A} (body : M A) (handler : string -> M A) : M A :=
  fun st =>
    match body st with
    | Raise e st' => handler e st'
    | r => r
    end.

(** [try: body  finally: fin] *)
Definition try_finally {A} (body : M A) (fin : M unit) : M A :=
  fun st =>
    match body st with
    | Hang st' => Hang st'
    | r =>
        match fin (final_state r) with
        | Ret _ st' =>
            match r with
            | Ret a _ => Ret a st'
            | Raise e _ => Raise e st'
            | _ => SysExit st'
            end
        | Raise e st' => Raise e st'
        | SysExit st' => SysExit st'
        | Hang st' => Hang st'
        end
    end.

Definition log (e : Event) : M unit :=
  fun st =>
    Ret tt {| self_path := self_path st; self_mode := self_mode st;
              files := files st; dirs := dirs st;
              trace := trace st ++ [e] |}.

Definition print (s : string) : M unit := log (Print s).

(** Several events in a row. *)
Definition log_all (evs : list Event) : M unit :=
  fun st =>
    Ret tt {| self_path := self_path st; self_mode := self_mode st;
              files := files st; dirs := dirs st;
              trace := trace st ++ evs |}.

Definition get_path : M string := fun st => Ret (self_path st) st.
Definition get_mode : M string := fun st => Ret (self_mode st) st.


Definition set_mode (m : string) : M unit :=
  fun st =>
    Ret tt {| self_path := self_path st; self_mode := m;
              files := files st; dirs := dirs st; trace := trace st |}.

(** *** Files *)

Definition mem (p : string) (l : list string) : bool := existsb (String.eqb p) l.

Definition add (p : string) (l : list string) : list string :=
  if mem p l then l else p :: l.

Definition del (p : string) (l : list string) : list string :=
  filter (fun q => negb (String.eqb p q)) l.

Definition set_files (f : list string -> list string) : M unit :=
  fun st =>
    Ret tt {| self_path := self_path st; self_mode := self_mode st;
              files := f (files st); dirs := dirs st; trace := trace st |}.

Definition create_file (p : string) : M unit := set_files (add p).

(** [os.path.exists(p)] *)
Definition path_exists (p : string) : M bool :=
  fun st => Ret (mem p (files st) || mem p (dirs st)) st.

(** [os.unlink(p)], [os.remove(p)]: a missing file is an [OSError]. *)
Definition os_remove (p : string) : M unit :=
  fun st =>
    if mem p (files st) then set_files (del p) st
    else Raise ("[Errno 2] No such file or directory: " ++ p) st.

(** ** [YouTubeDownloader._update_ffmpeg_progress] *)

(** Python floats. *)
Module PyFloat.

Definition prec : Z := 53.
Definition emax : Z := 1024.

Definition zero : spec_float := S754_zero false.

Definition add : spec_float -> spec_float -> spec_float := SFadd prec emax.
Definition sub : spec_float -> spec_float -> spec_float := SFsub prec emax.
Definition ltb : spec_float -> spec_float -> bool := SFltb.

(** An integer as an exact, unrounded binary number. *)
Definition exact (z : Z) : spec_float :=
  match z with
  | Z0 => S754_zero false
  | Zpos p => S754_finite false p 0
  | Zneg p => S754_finite true p 0
  end.

(** [a / b] on two [int]s: the quotient rounded once, to the nearest
    float, ties to even; [OverflowError] when that is not finite. *)
Definition true_divide (a b : Z) : result spec_float :=
  if (b =? 0)%Z then Err "division by zero"
  else
    match SFdiv prec emax (exact a) (exact b) with
    | S754_infinity _ => Err "integer division result too large for a float"
    | q => Ok q
    end.

End PyFloat.

(** The tqdm bar: [n] is the displayed amount, [0] at first.
    [update(d)] adds [d]. *)
Record Pbar : Type := { n : spec_float }.

Definition pbar_update (d : spec_float) (pbar : Pbar) : Pbar :=
  {| n := PyFloat.add (n pbar) d |}.

(** What one turn of the [while True] loop comes to: round again (with
    the bar, whether [pbar.update] was called, whether the turn slept),
    [break], or an exception that nothing in the routine catches. *)
Inductive Turn : Type :=
| Again (pbar : Pbar) (updated slept : bool)
| Stop
| Uncaught (e : string).

(** One turn of the loop on the line [readline()] returned. *)
Definition progress_turn (line : string) (pbar : Pbar) : Turn :=
  if line =? EmptyString then Again pbar false true
  else if PyStr.contains "progress=end" line then Stop
  else if PyStr.contains "out_time_ms=" line then
    match PyStr.split "=" line with
    | _ :: part1 :: _ =>
        match PyStr.int part1 with
        | Some time_ms =>
            match PyFloat.true_divide time_ms 1000000 with
            | Ok current_time_seconds =>
                Again (pbar_update (PyFloat.sub current_time_seconds (n pbar)) pbar)
                      true false
            | Err e => Uncaught e
            end
        | None => Again pbar false false
        end
    | _ => Again pbar false false
    end
  else Again pbar false false.

(** The state of the routine after the reads it has been given: the bar,
    the amounts displayed after each [pbar.update], whether it has
    returned, the exception that ended it if one did, the number of times
    it slept, and the reads it has not consumed. *)
Record Progress : Type := {
  pbar_of : Pbar;
  displayed : list spec_float;
  finished : bool;
  died : option string;
  sleeps : nat;
  unread : list string
}.

Fixpoint _update_ffmpeg_progress (pbar : Pbar) (reads : list string) : Progress :=
  match reads with
  | [] => {| pbar_of := pbar; displayed := []; finished := false; died := None;
             sleeps := 0; unread := [] |}
  | line :: rest =>
      match progress_turn line pbar with
      | Stop => {| pbar_of := pbar; displayed := []; finished := true; died := None;
                   sleeps := 0; unread := rest |}
      | Uncaught e => {| pbar_of := pbar; displayed := []; finished := false;
                         died := Some e; sleeps := 0; unread := rest |}
      | Again pbar' u z =>
          let r := _update_ffmpeg_progress pbar' rest in
          {| pbar_of := pbar_of r;
             displayed := if u then n pbar' :: displayed r else displayed r;
             finished := finished r;
             died := died r;
             sleeps := if z then S (sleeps r) else sleeps r;
             unread := unread r |}
      end
  end.

(** [tqdm(total=...)] starts at zero. *)
Definition tqdm : Pbar := {| n := PyFloat.zero |}.

(** A log line [out_time_ms=<k>]. *)
Definition out_time_ms_line (k : Z) : string :=
  "out_time_ms=" ++ PyStr.str_of_Z k ++ nl.


(** ** The encoder commands built by [_download_video] *)

Definition video_command
    (progress_file video_filepath audio_filepath video_codec output_filepath : string)
    : list string :=
  [ "ffmpeg"; "-y"; "-nostdin";
    "-progress"; progress_file;
    "-i"; video_filepath;
    "-i"; audio_filepath;
    "-c:v"; video_codec;
    "-pix_fmt"; "yuv420p";
    "-c:a"; "aac";
    "-strict"; "experimental";
    output_filepath ].

Definition sound_command (mp3_file_path : string) : list string :=
  [ "ffmpeg"; "-i"; "pipe:0"; "-vn"; "-b:a"; "192k"; "-f"; "mp3"; mp3_file_path ].

(** The flag that tells ffmpeg to overwrite its output. *)
Definition overwrite_flag : string := "-y".

(** ** The methods of [YouTubeDownloader] *)

Inductive Next : Type := Continue | Break.

Section Downloader.

Variable env : Env.

(** [os.makedirs(d, exist_ok=True)] *)
Definition makedirs (d : string) : M unit :=
  lift (env_makedirs env d);;
  fun st =>
    Ret tt {| self_path := self_path st; self_mode := self_mode st;
              files := files st; dirs := add d (dirs st); trace := trace st |}.



(** [stream.download(output_path=d, filename=f)] *)
Definition stream_download (s : Stream) (d f : string) : M string :=
  let p := PyStr.path_join d f in
  match download s with
  | Ok _ => create_file p;; ret p
  | Err e => (if download_partial s then create_file p else ret tt);; raise e
  end.

(** [tempfile.NamedTemporaryFile(delete=False, ...)]: a new file, which
    exists from then on; its name is returned.  The file is opened
    exclusively, so a name already in use is an error. *)
Definition NamedTemporaryFile : M string :=
  name <- lift (env_tempfile env);;
  used <- path_exists name;;
  if used : bool then raise ("[Errno 17] File exists: " ++ name)
  else create_file name;; ret name.

(** The output file is the last argument of the command. *)
Definition output_of (command : list string) : string :=
  last command EmptyString.

(** Lines 118-125: the polling thread is started, the encoder is run
    and waited for, the thread is joined.  Gives the return code and the
    encoder's error output.  When [Popen] raises, the thread is left
    polling and is not joined.  When the encoder exits, the join returns
    once the thread has ended, by its [break] or by an exception of its
    own; a thread that goes on polling blocks the join for ever. *)
Definition run_merge (command : list string) : M (Z * string) :=
  log (Exec command);;
  match ffmpeg env command with
  | PopenRaises e => log Thread_left_polling;; raise e
  | NeverExits => hang
  | Exited rc err progress =>
      (if (rc =? 0)%Z then create_file (output_of command) else ret tt);;
      let thread := _update_ffmpeg_progress tqdm progress in
      log_all (repeat Thread_sleep (sleeps thread));;
      if finished thread then ret (rc, err)
      else
        match died thread with
        | Some e => log (Thread_died e);; ret (rc, err)
        | None => hang
        end
  end.

(** Lines 166-167: [Popen] and [communicate]. *)
Definition run_convert (command : list string) : M (Z * string) :=
  log (Exec command);;
  match ffmpeg env command with
  | PopenRaises e => raise e
  | NeverExits => hang
  | Exited rc err _ =>
      (if (rc =? 0)%Z then create_file (output_of command) else ret tt);;
      ret (rc, err)
  end.

(** Lines 62-70. *)
Definition caption_block (yt : YouTubeObj) (title lang : string) : M unit :=
  try_except
    (match yt_captions yt lang with
     | CaptionsRaise e => raise e
     | CaptionAbsent =>
         print ("No captions available for language code: " ++ lang)
     | CaptionPresent file dl =>
         path <- get_path;;
         lift dl;;
         create_file (PyStr.path_join path file);;
         print "Captions downloaded."
     end)
    (fun e => print ("Could not download captions: " ++ e)).

(** Lines 134-142. *)
Definition cleanup (progress_file video_filepath audio_filepath : string) : M unit :=
  os_remove progress_file;;
  v <- path_exists video_filepath;;
  (if v then os_remove video_filepath else ret tt);;
  a <- path_exists audio_filepath;;
  (if a then os_remove audio_filepath else ret tt);;
  print "Temporary files cleaned up.".

(** Lines 73-142. *)
Definition video_branch (yt : YouTubeObj) (title : string) : M unit :=
  video_stream <- lift (yt_video_stream yt);;
  audio_stream <- lift (yt_audio_only yt);;
  match video_stream, audio_stream with
  | None, _ => print "No video stream found."
  | Some _, None => print "No audio stream found."
  | Some video_stream, Some audio_stream =>
      path <- get_path;;
      let temp_dir := PyStr.path_join path ".temp" in
      makedirs temp_dir;;
      print ("Downloading video stream (" ++ resolution video_stream ++ ")...");;
      video_filepath <- stream_download video_stream temp_dir (title ++ "_video.mp4");;
      print "Video stream download complete.";;
      print "Downloading audio stream...";;
      audio_filepath <- stream_download audio_stream temp_dir (title ++ "_audio.mp4");;
      print "Audio stream download complete.";;
      let output_filepath := PyStr.path_join path (title ++ ".mp4") in
      print "Merging video and audio streams with ffmpeg...";;
      progress_file <- NamedTemporaryFile;;
      let video_codec :=
        if env_platform_system env =? "Darwin" then "h264_videotoolbox" else "libx264" in
      let command :=
        video_command progress_file video_filepath audio_filepath video_codec
                      output_filepath in
      total_duration <- lift (yt_length yt);;
      try_finally
        (try_except
           (r <- run_merge command;;
            if (fst r =? 0)%Z
            then print ("Successfully merged and saved to " ++ output_filepath)
            else print ("Error during ffmpeg merging: " ++ snd r))
           (fun e => print ("An error occurred during ffmpeg process: " ++ e)))
        (cleanup progress_file video_filepath audio_filepath)
  end.

(** Lines 145-175. *)
Definition sound_branch (yt : YouTubeObj) (title : string) : M unit :=
  stream <- lift (yt_audio_only yt);;
  print "Streaming audio to ffmpeg for MP3 conversion...";;
  match stream with
  | None => raise "'NoneType' object has no attribute 'stream_to_buffer'"
  | Some stream =>
      audio_buffer <- lift (stream_to_buffer stream);;
      path <- get_path;;
      let mp3_file_path := PyStr.path_join path (title ++ ".mp3") in
      let command := sound_command mp3_file_path in
      total_duration <- lift (yt_length yt);;
      try_except
        (r <- run_convert command;;
         if (fst r =? 0)%Z
         then print ("Successfully created " ++ title ++ ".mp3")
         else print ("Error during ffmpeg conversion: " ++ snd r))
        (fun e => print ("An error occurred during ffmpeg conversion: " ++ e))
  end.

(** Lines 72 and 144. *)
Definition mode_branch (yt : YouTubeObj) (title : string) : M unit :=
  mode <- get_mode;;
  if mode =? "V" then video_branch yt title
  else if mode =? "S" then sound_branch yt title
  else ret tt.

Definition _download_video (url lang : string) : M unit :=
  log (Call_download_video url lang);;
  try_except
    (yt <- lift (YouTube env url);;
     raw_title <- lift (yt_title yt);;
     let title := _sanitize_filename raw_title in
     print (nl ++ "Processing: " ++ raw_title);;
     print ("Sanitized Title: " ++ title);;
     caption_block yt title lang;;
     mode_branch yt title)
    (fun err => print ("An error occurred during video processing: " ++ err)).

(** The [for] loop of lines 212-214. *)
Fixpoint playlist_loop (video_urls : list string) : M unit :=
  match video_urls with
  | [] => ret tt
  | video_url :: rest =>
      _download_video video_url "ko";;
      log (Sleep 1);;
      playlist_loop rest
  end.

Definition _download_playlist (url : string) : M unit :=
  log (Call_download_playlist url);;
  try_except
    (playlist_id <-
       match Re.search_list url with
       | Some g => ret g
       | None => raise "'NoneType' object has no attribute 'group'"
       end;;
     print ("playlist_id: " ++ playlist_id);;
     let playlist_url := "https://www.youtube.com/playlist?list=" ++ playlist_id in
     pl <- lift (Playlist env playlist_url);;
     pl_title <- lift (pl_title pl);;
     print (nl ++ "Found playlist: " ++ pl_title);;
     video_urls <- lift (pl_video_urls pl);;
     print ("Downloading " ++ PyStr.str_of_N (N.of_nat (List.length video_urls))
            ++ " videos...");;
     playlist_loop video_urls;;
     print (nl ++ "Playlist download finished."))
    (fun err => print ("Error processing playlist: " ++ err)).

Definition mode_name (mode : string) : string :=
  if mode =? "V" then "Video" else "Sound".

Definition _print_instructions : M unit :=
  print (nl ++ "Commands:");;
  print "  - Enter a YouTube URL to download.";;
  print "  - '/video' to switch to video download mode.";;
  print "  - '/sound' to switch to sound download mode (default). ";;
  print "  - '/exit' to quit the program.";;
  mode <- get_mode;;
  print (nl ++ "Default mode is Sound. Current mode: " ++ mode_name mode).

(** [input(prompt)] on the lines still to be read: the line and the
    rest, [EOFError] when there is none. *)
Definition input (prompt : string) (stdin : list string) : M (string * list string) :=
  log (Prompt prompt);;
  match stdin with
  | line :: rest => ret (line, rest)
  | [] => raise "EOF when reading a line"
  end.

Definition ask_exit (stdin : list string) : M (list string) :=
  r <- input "Do you want to exit? (y/n): " stdin;;
  if PyStr.lower (fst r) =? "y" then sys_exit else ret (snd r).

Definition _check_dependencies (stdin : list string) : M (list string) :=
  stdin <-
    (if env_which_ffmpeg env then ret stdin
     else
       print (nl ++ "Error: ffmpeg is not installed or not in your PATH.");;
       print "Please install ffmpeg to use this script.";;
       print "  - On macOS (with Homebrew): brew install ffmpeg";;
       print "  - On Windows (with Chocolatey): choco install ffmpeg";;
       print "  - Or download from https://ffmpeg.org/download.html and add it to your system's PATH.";;
       ask_exit stdin);;
  let missing_packages :=
    ((if env_import_ok env "pytubefix" then [] else ["pytubefix"]) ++
     (if env_import_ok env "tqdm" then [] else ["tqdm"]))%list in
  match missing_packages with
  | [] => ret stdin
  | _ =>
      print (nl ++ "Error: The following Python packages are not installed: "
             ++ String.concat ", " missing_packages);;
      print ("Please install them using pip: pip install "
             ++ String.concat " " missing_packages);;
      ask_exit stdin
  end.

(** The body of the [while True] loop of [run] on one line of input. *)
Definition loop_body (line : string) : M Next :=
  let user_input := PyStr.strip line in
  if PyStr.lower user_input =? "/exit" then
    print "Exiting program.";; ret Break
  else if PyStr.lower user_input =? "/video" then
    set_mode "V";; print "Mode changed to Video.";; ret Continue
  else if PyStr.lower user_input =? "/sound" then
    set_mode "S";; print "Mode changed to Sound.";; ret Continue
  else if user_input =? EmptyString then
    ret Continue
  else
    let link := user_input in
    _download_video link "ko";;
    mode <- get_mode;;
    print (nl ++ "Current mode: " ++ mode_name mode);;
    ret Continue.

Fixpoint main_loop (stdin : list string) : M unit :=
  log (Prompt (nl ++ "Enter YouTube URL or command: "));;
  match stdin with
  | [] => raise "EOF when reading a line"
  | line :: rest =>
      next <- loop_body line;;
      match next with
      | Break => ret tt
      | Continue => main_loop rest
      end
  end.

Definition run (stdin : list string) : M unit :=
  stdin <- _check_dependencies stdin;;
  _print_instructions;;
  main_loop stdin.

End Downloader.



(** ** Definitions that follow the specification's words *)

(** The characters the specification lists as removed. *)
Definition removed_characters : string :=
  "\/*?:" ++ String (ascii_of_N 34) "<>|#".

(** ** Auxiliary notions for the proofs *)




(** The integer a log line reports: the text between its first two
    [=], read by [int], when the line holds [out_time_ms=]. *)
Definition logged_value (line : string) : option Z :=
  if PyStr.contains "out_time_ms=" line then
    match PyStr.split "=" line with
    | _ :: part1 :: _ => PyStr.int part1
    | _ => None
    end
  else None.

(** The line holds [progress=end]. *)
Definition ends_log (line : string) : bool := PyStr.contains "progress=end" line.

(** The line reports a time whose count of seconds is out of the range
    of a float. *)
Definition too_large (line : string) : bool :=
  match logged_value line with
  | Some t =>
      match PyFloat.true_divide t 1000000 with
      | Ok _ => false
      | Err _ => true
      end
  | None => false
  end.

(** The line ends the routine, one way or the other. *)
Definition stops (line : string) : bool := ends_log line || too_large line.

(** The reads left after the first line that ends the routine. *)
Fixpoint after_stop (reads : list string) : list string :=
  match reads with
  | [] => []
  | line :: rest => if stops line then rest else after_stop rest
  end.

(** The routine is still polling. *)
Definition polling (r : Progress) : bool :=
  negb (finished r) && match died r with Some _ => false | None => true end.

(** Whether an event is an entry into one of the two download operations. *)
Definition is_video_call (e : Event) : bool :=
  match e with Call_download_video _ _ => true | _ => false end.

Definition is_playlist_call (e : Event) : bool :=
  match e with Call_download_playlist _ => true | _ => false end.

Definition is_call (e : Event) : bool := is_video_call e || is_playlist_call e.

(** [p] lies inside the directory [dir]. *)
Definition inside (dir p : string) : bool := prefix (dir ++ "/") p.

(** What [posixpath.join] puts before a relative second argument. *)
Definition dir_prefix (a : string) : string :=
  if (a =? EmptyString) || PyStr.ends_with_slash a then a else a ++ "/".

(** A computation adds to the trace only events that [okev] accepts and,
    when [fixed] is set, leaves [self.mode] and [self.path] as they are. *)
Definition keeps {A : Type} (fixed : bool) (okev : Event -> bool) (m : M A) : Prop :=
  forall st,
    (fixed = true ->
     self_mode (final_state (m st)) = self_mode st
     /\ self_path (final_state (m st)) = self_path st)
    /\ exists evs,
         trace (final_state (m st)) = (trace st ++ evs)%list
         /\ forallb okev evs = true.

(** [_download_video] after the mark of its entry. *)
Definition download_video_body (env : Env) (url lang : string) : M unit :=
  try_except
    (yt <- lift (YouTube env url);;
     raw_title <- lift (yt_title yt);;
     let title := _sanitize_filename raw_title in
     print (nl ++ "Processing: " ++ raw_title);;
     print ("Sanitized Title: " ++ title);;
     caption_block yt title lang;;
     mode_branch env yt title)
    (fun err => print ("An error occurred during video processing: " ++ err)).

(** The state with more events, with other files, with another mode. *)
Definition emit (evs : list Event) (st : State) : State :=
  {| self_path := self_path st; self_mode := self_mode st;
     files := files st; dirs := dirs st; trace := trace st ++ evs |}.

Definition with_files (fs : list string) (st : State) : State :=
  {| self_path := self_path st; self_mode := self_mode st;
     files := fs; dirs := dirs st; trace := trace st |}.

Definition with_mode (mode : string) (st : State) : State :=
  {| self_path := self_path st; self_mode := mode;
     files := files st; dirs := dirs st; trace := trace st |}.

(** The command an input line stands for: the line stripped of
    surrounding white space, in lower case. *)
Definition command_of (line : string) : string := PyStr.lower (PyStr.strip line).

Definition is_command (line : string) : bool :=
  (command_of line =? "/exit") || (command_of line =? "/video")
  || (command_of line =? "/sound").

(** The mode after an input line, as the specification gives it:
    [/video] leads to Video, [/sound] to Sound, anything else nowhere. *)
Definition mode_step (mode line : string) : string :=
  if command_of line =? "/video" then "V"
  else if command_of line =? "/sound" then "S"
  else mode.

(** What the loop prints on a command. *)
Definition command_message (cmd : string) : string :=
  if cmd =? "/exit" then "Exiting program."
  else if cmd =? "/video" then "Mode changed to Video."
  else "Mode changed to Sound.".

(** The events a computation added to the trace of [st]. *)
Definition new_events {A : Type} (st : State) (r : Res A) : list Event :=
  skipn (List.length (trace st)) (trace (final_state r)).

(** ** A sample world *)

Definition demo_stream : Stream :=
  {| resolution := "1080p"; download := Ok tt; download_partial := false;
     stream_to_buffer := Ok "ID3-audio-bytes" |}.

Definition demo_yt : YouTubeObj :=
  {| yt_title := Ok "AC/DC: Live?";
     yt_captions := fun _ => CaptionAbsent;
     yt_video_stream := Ok (Some demo_stream);
     yt_audio_only := Ok (Some demo_stream);
     yt_length := Ok 212%N |}.

Definition demo_env : Env :=
  {| env_home := "/home/user";
     env_which_ffmpeg := true;
     env_import_ok := fun _ => true;
     env_platform_system := "Linux";
     env_makedirs := fun _ => Ok tt;
     env_tempfile := Ok "/tmp/tmpk3x9";
     YouTube := fun _ => Ok demo_yt;
     Playlist := fun _ => Err "playlist unavailable";
     ffmpeg := fun _ => Exited 0 EmptyString
                          [out_time_ms_line 212000000; "progress=end" ++ nl] |}.

(** A session in the download directory [/home/user/Downloads]. *)
Definition demo_state (mode : string) : State :=
  {| self_path := "/home/user/Downloads"; self_mode := mode;
     files := []; dirs := ["/home/user/Downloads"]; trace := [] |}.

(** ** What a download is expected to leave behind *)

Definition is_exec (e : Event) : bool :=
  match e with Exec _ => true | _ => false end.

(** The caption block's message and the files after it. *)
Definition caption_message (yt : YouTubeObj) (lang : string) : string :=
  match yt_captions yt lang with
  | CaptionsRaise e => "Could not download captions: " ++ e
  | CaptionAbsent => "No captions available for language code: " ++ lang
  | CaptionPresent _ (Ok _) => "Captions downloaded."
  | CaptionPresent _ (Err e) => "Could not download captions: " ++ e
  end.

Definition caption_files (yt : YouTubeObj) (lang path : string) (fs : list string)
    : list string :=
  match yt_captions yt lang with
  | CaptionPresent file (Ok _) => add (PyStr.path_join path file) fs
  | _ => fs
  end.

(** The state in which [_download_video] reaches the mode branch. *)
Definition after_captions (yt : YouTubeObj) (raw_title url lang : string) (st : State)
    : State :=
  emit [Print (caption_message yt lang)]
    (with_files (caption_files yt lang (self_path st) (files st))
       (emit [Print ("Sanitized Title: " ++ _sanitize_filename raw_title)]
          (emit [Print (nl ++ "Processing: " ++ raw_title)]
             (emit [Call_download_video url lang] st)))).

(** The paths of a download. *)
Definition temp_dir_of (path : string) : string := PyStr.path_join path ".temp".

Definition video_filepath_of (path title : string) : string :=
  PyStr.path_join (temp_dir_of path) (title ++ "_video.mp4").

Definition audio_filepath_of (path title : string) : string :=
  PyStr.path_join (temp_dir_of path) (title ++ "_audio.mp4").

Definition mp4_of (path title : string) : string := PyStr.path_join path (title ++ ".mp4").
Definition mp3_of (path title : string) : string := PyStr.path_join path (title ++ ".mp3").

(** The media part of a sound-mode download goes well: there is an audio
    stream, it is read into memory, and the encoder exits with code 0. *)
Definition sound_succeeds (env : Env) (yt : YouTubeObj) (title path : string) : bool :=
  match yt_audio_only yt, yt_length yt with
  | Ok (Some s), Ok _ =>
      match stream_to_buffer s, ffmpeg env (sound_command (mp3_of path title)) with
      | Ok _, Exited 0 _ _ => true
      | _, _ => false
      end
  | _, _ => false
  end.

(** The merge command of a video-mode download. *)
Definition merge_command (env : Env) (path title progress_file : string) : list string :=
  video_command progress_file (video_filepath_of path title)
    (audio_filepath_of path title)
    (if env_platform_system env =? "Darwin" then "h264_videotoolbox" else "libx264")
    (mp4_of path title).

(** A video-mode download reaches the merge stage from the files [fs] and
    directories [ds]: both streams are there and are downloaded, and the
    progress log is created. *)
Definition merge_reached (env : Env) (yt : YouTubeObj) (title path : string)
    (fs ds : list string) : bool :=
  match yt_video_stream yt, yt_audio_only yt, yt_length yt with
  | Ok (Some vs), Ok (Some aus), Ok _ =>
      match env_makedirs env (temp_dir_of path), download vs, download aus,
            env_tempfile env with
      | Ok _, Ok _, Ok _, Ok tmp =>
          negb (mem tmp (add (audio_filepath_of path title)
                          (add (video_filepath_of path title) fs))
                || mem tmp (add (temp_dir_of path) ds))
      | _, _, _, _ => false
      end
  | _, _, _ => false
  end.

(** The name of the progress log. *)
Definition progress_file_of (env : Env) : string :=
  match env_tempfile env with Ok tmp => tmp | Err _ => EmptyString end.

(** The media part of a video-mode download goes well: the merge stage is
    reached, the encoder exits with code 0 and ends its progress log. *)
Definition video_succeeds (env : Env) (yt : YouTubeObj) (title path : string)
    (fs ds : list string) : bool :=
  merge_reached env yt title path fs ds
  && match ffmpeg env (merge_command env path title (progress_file_of env)) with
     | Exited 0 _ progress => finished (_update_ffmpeg_progress tqdm progress)
     | _ => false
     end
  && negb (progress_file_of env =? mp4_of path title).

(** The title a download works with. *)
Definition resolved (env : Env) (url : string) : option (YouTubeObj * string) :=
  match YouTube env url with
  | Ok yt => match yt_title yt with
             | Ok raw => Some (yt, raw)
             | Err _ => None
             end
  | Err _ => None
  end.

(** The encoder, or the thread that polls its progress log, never ends. *)
Definition encoder_blocks (env : Env) (command : list string) : bool :=
  match ffmpeg env command with
  | PopenRaises _ => false
  | NeverExits => true
  | Exited _ _ progress => negb (finished (_update_ffmpeg_progress tqdm progress))
  end.

(** The files once the encoder has run: its output is there when it
    exited with code 0. *)
Definition files_after_encoder (env : Env) (command : list string) (fs : list string)
    : list string :=
  match ffmpeg env command with
  | Exited 0 _ _ => add (last command EmptyString) fs
  | _ => fs
  end.

Definition is_hang {A : Type} (r : Res A) : bool :=
  match r with Hang _ => true | _ => false end.

(** Lines 117-142 of [_download_video]: the merge under [try], the report
    of an exception, the cleanup under [finally]. *)
Definition merge_block (env : Env) (command : list string) (ok_msg : string)
    (progress_file video_filepath audio_filepath : string) : M unit :=
  try_finally
    (try_except
       (r <- run_merge env command;;
        if (fst r =? 0)%Z then print ok_msg
        else print ("Error during ffmpeg merging: " ++ snd r))
       (fun e => print ("An error occurred during ffmpeg process: " ++ e)))
    (cleanup progress_file video_filepath audio_filepath).

(** In a video-mode download the video stream is downloaded and the
    download of the audio stream raises. *)
Definition audio_download_fails (env : Env) (yt : YouTubeObj) (path : string) : bool :=
  match yt_video_stream yt, yt_audio_only yt with
  | Ok (Some vs), Ok (Some aus) =>
      match env_makedirs env (temp_dir_of path), download vs, download aus with
      | Ok _, Ok _, Err _ => true
      | _, _, _ => false
      end
  | _, _ => false
  end.

(** A world in which asking for the captions raises. *)
Definition caption_fail_env : Env :=
  {| env_home := env_home demo_env;
     env_which_ffmpeg := true;
     env_import_ok := fun _ => true;
     env_platform_system := "Darwin";
     env_makedirs := fun _ => Ok tt;
     env_tempfile := Ok "/tmp/tmpk3x9";
     YouTube := fun _ =>
       Ok {| yt_title := Ok "AC/DC: Live?";
             yt_captions := fun _ => CaptionsRaise "HTTP Error 400: Bad Request";
             yt_video_stream := Ok (Some demo_stream);
             yt_audio_only := Ok (Some demo_stream);
             yt_length := Ok 212%N |};
     Playlist := Playlist demo_env;
     ffmpeg := ffmpeg demo_env |}.

(** A world in which the download of the audio stream breaks off. *)
Definition broken_audio : Stream :=
  {| resolution := "None"; download := Err "IncompleteRead(0 bytes read)";
     download_partial := false; stream_to_buffer := Err "IncompleteRead(0 bytes read)" |}.

Definition leak_env : Env :=
  {| env_home := env_home demo_env;
     env_which_ffmpeg := true;
     env_import_ok := fun _ => true;
     env_platform_system := "Linux";
     env_makedirs := fun _ => Ok tt;
     env_tempfile := Ok "/tmp/tmpk3x9";
     YouTube := fun _ =>
       Ok {| yt_title := Ok "AC/DC: Live?";
             yt_captions := fun _ => CaptionAbsent;
             yt_video_stream := Ok (Some demo_stream);
             yt_audio_only := Ok (Some broken_audio);
             yt_length := Ok 212%N |};
     Playlist := Playlist demo_env;
     ffmpeg := ffmpeg demo_env |}.

(** ** Notions for the further properties *)

(** A computation never ends by [exit()]. *)
Definition no_exit {A : Type} (m : M A) : Prop :=
  forall st, match m st with SysExit _ => False | _ => True end.

(** A computation returns or blocks: no exception escapes it and it does
    not end the process. *)
Definition contained {A : Type} (m : M A) : Prop :=
  forall st, match m st with Ret _ _ | Hang _ => True | _ => False end.

(** Only white space in [s]. *)
Definition all_space (s : string) : bool :=
  forallb PyStr.isspace (list_ascii_of_string s).

Definition is_sleep (e : Event) : bool :=
  match e with Sleep _ => true | _ => false end.

(** What a download shows of itself after its entry: what it prints,
    the encoder it runs, and the marks of the thread that polls the
    progress log of the merge. *)
Definition is_download_event (e : Event) : bool :=
  match e with
  | Print _ | Exec _ | Thread_sleep | Thread_died _ | Thread_left_polling => true
  | _ => false
  end.

(** Why a URL is not resolved: the message of the exception that
    [YouTube(url)] or [yt.title] raises. *)
Definition resolution_error (env : Env) (url : string) : option string :=
  match YouTube env url with
  | Err e => Some e
  | Ok yt => match yt_title yt with
             | Err e => Some e
             | Ok _ => None
             end
  end.

(** In video mode one of the two streams is missing: the message of
    lines 79 and 82. *)
Definition stream_missing (yt : YouTubeObj) : option string :=
  match yt_video_stream yt, yt_audio_only yt with
  | Ok None, Ok _ => Some "No video stream found."
  | Ok (Some _), Ok None => Some "No audio stream found."
  | _, _ => None
  end.

(** The encoder exits and no line of its progress log ends the polling
    routine: none holds [progress=end], none reports a time out of the
    range of a float. *)
Definition log_never_ends (env : Env) (command : list string) : bool :=
  match ffmpeg env command with
  | Exited _ _ progress => negb (existsb stops progress)
  | _ => false
  end.

(** The encoder exits and the polling thread dies on its progress log:
    the first line that ends the routine does not hold [progress=end]. *)
Definition log_kills_thread (env : Env) (command : list string) : bool :=
  match ffmpeg env command with
  | Exited _ _ progress =>
      match find stops progress with
      | Some line => negb (ends_log line)
      | None => false
      end
  | _ => false
  end.

(** In sound mode the stream is read and the encoder fails: the message
    of line 172 (exit code not 0) or of line 175 ([Popen] raises). *)
Definition sound_encoder_fails (env : Env) (yt : YouTubeObj) (title path : string)
    : option string :=
  match yt_audio_only yt, yt_length yt with
  | Ok (Some s), Ok _ =>
      match stream_to_buffer s, ffmpeg env (sound_command (mp3_of path title)) with
      | Ok _, Exited rc err _ =>
          if (rc =? 0)%Z then None
          else Some ("Error during ffmpeg conversion: " ++ err)
      | Ok _, PopenRaises e =>
          Some ("An error occurred during ffmpeg conversion: " ++ e)
      | _, _ => None
      end
  | _, _ => None
  end.

(** The playlist a URL leads to: its identifier is found, the playlist
    is resolved, and its title and video URLs are read. *)
Definition playlist_resolved (env : Env) (url : string)
    : option (string * string * list string) :=
  match Re.search_list url with
  | Some playlist_id =>
      match Playlist env ("https://www.youtube.com/playlist?list=" ++ playlist_id) with
      | Ok pl =>
          match pl_title pl, pl_video_urls pl with
          | Ok title, Ok video_urls => Some (playlist_id, title, video_urls)
          | _, _ => None
          end
      | Err _ => None
      end
  | None => None
  end.

(** The calls a playlist makes for the first [k] of its videos. *)
Definition video_calls (video_urls : list string) : list Event :=
  map (fun u => Call_download_video u "ko") video_urls.

Definition is_exit_line (line : string) : bool := command_of line =? "/exit".

(** The reads that hold something. *)
Definition nonblank_reads (reads : list string) : list string :=
  filter (fun line => negb (line =? EmptyString)) reads.

(** ** More sample worlds *)

(** No network: the video cannot be resolved. *)
Definition offline_env : Env :=
  {| env_home := env_home demo_env;
     env_which_ffmpeg := false;
     env_import_ok := fun _ => true;
     env_platform_system := "Linux";
     env_makedirs := fun _ => Ok tt;
     env_tempfile := Ok "/tmp/tmpk3x9";
     YouTube := fun _ => Err "<urlopen error [Errno -2] Name or service not known>";
     Playlist := Playlist demo_env;
     ffmpeg := fun _ => PopenRaises "[Errno 2] No such file or directory: 'ffmpeg'" |}.

(** A video with no video-only stream. *)
Definition audio_only_env : Env :=
  {| env_home := env_home demo_env;
     env_which_ffmpeg := true;
     env_import_ok := fun _ => true;
     env_platform_system := "Linux";
     env_makedirs := fun _ => Ok tt;
     env_tempfile := Ok "/tmp/tmpk3x9";
     YouTube := fun _ =>
       Ok {| yt_title := Ok "AC/DC: Live?";
             yt_captions := fun _ => CaptionAbsent;
             yt_video_stream := Ok None;
             yt_audio_only := Ok (Some demo_stream);
             yt_length := Ok 212%N |};
     Playlist := Playlist demo_env;
     ffmpeg := ffmpeg demo_env |}.

(** An encoder that fails at once, before it writes any progress. *)
Definition failing_encoder_env : Env :=
  {| env_home := env_home demo_env;
     env_which_ffmpeg := true;
     env_import_ok := fun _ => true;
     env_platform_system := "Linux";
     env_makedirs := fun _ => Ok tt;
     env_tempfile := Ok "/tmp/tmpk3x9";
     YouTube := YouTube demo_env;
     Playlist := Playlist demo_env;
     ffmpeg := fun _ => Exited 1 "Invalid data found when processing input" [] |}.

(** An encoder whose progress log reports a time of 321 digits and no
    [progress=end]. *)
Definition overflow_env : Env :=
  {| env_home := env_home demo_env;
     env_which_ffmpeg := true;
     env_import_ok := fun _ => true;
     env_platform_system := "Linux";
     env_makedirs := fun _ => Ok tt;
     env_tempfile := Ok "/tmp/tmpk3x9";
     YouTube := YouTube demo_env;
     Playlist := Playlist demo_env;
     ffmpeg := fun _ => Exited 0 EmptyString
                          ["frame=1" ++ nl; out_time_ms_line (10 ^ 320)] |}.

(** A playlist of three videos. *)
Definition playlist_env : Env :=
  {| env_home := env_home demo_env;
     env_which_ffmpeg := true;
     env_import_ok := fun _ => true;
     env_platform_system := "Linux";
     env_makedirs := fun _ => Ok tt;
     env_tempfile := Ok "/tmp/tmpk3x9";
     YouTube := fun url =>
       if url =? "https://youtu.be/b" then Err "Video unavailable" else Ok demo_yt;
     Playlist := fun _ =>
       Ok {| pl_title := Ok "Mix";
             pl_video_urls :=
               Ok ["https://youtu.be/a"; "https://youtu.be/b"; "https://youtu.be/c"] |};
     ffmpeg := ffmpeg demo_env |}.

(** The marks the polling thread of the merge leaves in the trace. *)
Definition is_thread (e : Event) : bool :=
  match e with
  | Thread_sleep | Thread_died _ | Thread_left_polling => true
  | _ => false
  end.

(** The merge never comes back: the encoder never exits, or the thread
    that polls its log neither reads [progress=end] nor dies. *)
Definition merge_hangs (env : Env) (command : list string) : bool :=
  match ffmpeg env command with
  | PopenRaises _ => false
  | NeverExits => true
  | Exited _ _ progress => polling (_update_ffmpeg_progress tqdm progress)
  end.

(** A step of the loop over a playlist: an entry into [_download_video]
    or a pause of the loop itself. *)
Definition is_step (e : Event) : bool := is_video_call e || is_sleep e.

(** The steps of the loop over [video_urls]: for each URL the download,
    then the pause of one second. *)
Definition playlist_steps (video_urls : list string) : list Event :=
  flat_map (fun u => [Call_download_video u "ko"; Sleep 1]) video_urls.

(** The links among the lines of input: the lines before the first
    [/exit] that, stripped, are not empty and are no command, each one
    stripped. *)
Fixpoint links_read (stdin : list string) : list string :=
  match stdin with
  | [] => []
  | line :: rest =>
      if is_exit_line line then []
      else if is_command line || (PyStr.strip line =? EmptyString) then links_read rest
      else PyStr.strip line :: links_read rest
  end.

(** * Properties *)

(** ** Strings *)

Section StringFacts.

Lemma list_ascii_app (s t : string) :
  list_ascii_of_string (s ++ t) = (list_ascii_of_string s ++ list_ascii_of_string t)%list.
Proof. induction s as [|c s IH]; simpl; [reflexivity | now rewrite IH]. Qed.

Lemma has_char_app (c : ascii) (s t : string) :
  PyStr.has_char c (s ++ t) = PyStr.has_char c s || PyStr.has_char c t.
Proof. unfold PyStr.has_char. now rewrite list_ascii_app, existsb_app. Qed.

Lemma has_char_cons (c a : ascii) (s : string) :
  PyStr.has_char c (String a s) = Ascii.eqb c a || PyStr.has_char c s.
Proof. reflexivity. Qed.

Lemma append_assoc (s t u : string) : (s ++ t) ++ u = s ++ t ++ u.
Proof. induction s as [|c s IH]; simpl; [reflexivity | now rewrite IH]. Qed.

Lemma append_nil_r (s : string) : s ++ EmptyString = s.
Proof. induction s as [|c s IH]; simpl; [reflexivity | now rewrite IH]. Qed.

Lemma length_app (s t : string) : String.length (s ++ t) = String.length s + String.length t.
Proof. induction s as [|c s IH]; simpl; [reflexivity | now rewrite IH]. Qed.

Lemma prefix_cons (a b : ascii) (s t : string) :
  prefix (String a s) (String b t) = Ascii.eqb a b && prefix s t.
Proof.
  simpl. destruct (ascii_dec a b) as [->|ne].
  - now rewrite Ascii.eqb_refl.
  - apply Ascii.eqb_neq in ne. now rewrite ne.
Qed.

Lemma prefix_app (s t : string) : prefix s (s ++ t) = true.
Proof.
  induction s as [|c s IH]; simpl.
  - now destruct t.
  - destruct (ascii_dec c c); [exact IH | congruence].
Qed.


Lemma contains_prefix (needle hay : string) :
  prefix needle hay = true -> PyStr.contains needle hay = true.
Proof. intros H. destruct hay; simpl in *; rewrite H; reflexivity. Qed.

Lemma prefix_split (needle hay : string) :
  prefix needle hay = true -> exists post, hay = needle ++ post.
Proof.
  revert hay. induction needle as [|a needle IH]; intros hay H.
  - exists hay. reflexivity.
  - destruct hay as [|b hay]; [discriminate|].
    rewrite prefix_cons in H. apply andb_true_iff in H as [Hab H].
    apply Ascii.eqb_eq in Hab. subst b.
    destruct (IH _ H) as [post ->]. exists post. reflexivity.
Qed.

(** [needle in hay] holds exactly when [hay] is some text, the needle,
    and some more text. *)
Lemma contains_spec (needle hay : string) :
  PyStr.contains needle hay = true <-> exists pre post, hay = pre ++ needle ++ post.
Proof.
  split.
  - induction hay as [|c hay IH]; cbn [PyStr.contains]; intros H.
    + rewrite orb_false_r in H. destruct (prefix_split _ _ H) as [post E].
      exists EmptyString, post. exact E.
    + apply orb_true_iff in H as [H|H].
      * destruct (prefix_split _ _ H) as [post E].
        exists EmptyString, post. exact E.
      * destruct (IH H) as (pre & post & ->).
        exists (String c pre), post. reflexivity.
  - intros (pre & post & ->). induction pre as [|c pre IH].
    + cbn [append]. apply contains_prefix, prefix_app.
    + cbn [append PyStr.contains]. rewrite IH. apply orb_true_r.
Qed.

Lemma mem_In (p : string) (l : list string) : mem p l = true <-> In p l.
Proof.
  unfold mem. rewrite existsb_exists. split.
  - intros (q & Hq & E). apply String.eqb_eq in E. now subst.
  - intros H. exists p. split; [assumption | apply String.eqb_refl].
Qed.

Lemma mem_add (p q : string) (l : list string) :
  mem p (add q l) = String.eqb p q || mem p l.
Proof.
  unfold add. destruct (mem q l) eqn:E; [|reflexivity].
  destruct (String.eqb_spec p q) as [->|]; [now rewrite E | reflexivity].
Qed.

Lemma mem_del (p q : string) (l : list string) :
  mem p (del q l) = negb (String.eqb p q) && mem p l.
Proof.
  unfold del, mem. induction l as [|x l IH]; simpl.
  - now rewrite andb_false_r.
  - destruct (String.eqb_spec q x) as [->|ne]; simpl.
    + rewrite IH. destruct (String.eqb_spec p x); simpl; reflexivity.
    + rewrite IH. destruct (String.eqb_spec p x) as [->|]; simpl.
      * destruct (String.eqb_spec x q); [congruence | reflexivity].
      * reflexivity.
Qed.

End StringFacts.

(** ** [_sanitize_filename] *)

Lemma illegal_removed_characters (c : ascii) :
  Re.illegal c = PyStr.has_char c removed_characters.
Proof.
  destruct c as [[] [] [] [] [] [] [] []]; vm_compute; reflexivity.
Qed.

Lemma sub_class_filter (cls : ascii -> bool) (s : string) :
  list_ascii_of_string (Re.sub_class cls EmptyString s)
  = filter (fun c => negb (cls c)) (list_ascii_of_string s).
Proof.
  induction s as [|c s IH]; simpl; [reflexivity|].
  destruct (cls c); simpl; now rewrite IH.
Qed.

Lemma sanitize_no_illegal (title : string) (c : ascii) :
  Re.illegal c = true -> PyStr.has_char c (_sanitize_filename title) = false.
Proof.
  intros Hc. unfold PyStr.has_char, _sanitize_filename.
  rewrite sub_class_filter.
  induction (list_ascii_of_string title) as [|a l IH]; simpl; [reflexivity|].
  destruct (Re.illegal a) eqn:Ea; simpl; [exact IH|].
  rewrite IH, orb_false_r. apply Ascii.eqb_neq. congruence.
Qed.

(** C1. For every title, [_sanitize_filename] returns the title without
    the characters backslash, slash, star, question mark, colon, double
    quote, angle brackets, bar and hash, and with every other character
    kept, in its place: the result is the title filtered by "is not one
    of these ten characters".  Nothing else is done to the title (no
    character is altered, no length is imposed), so a title without these
    characters comes back as it is and sanitizing twice changes nothing. *)
Theorem sanitize_filename_spec (title : string) :
  list_ascii_of_string (_sanitize_filename title)
  = filter (fun c => negb (PyStr.has_char c removed_characters))
           (list_ascii_of_string title)
  /\ Forall (fun c => PyStr.has_char c removed_characters = false)
            (list_ascii_of_string (_sanitize_filename title))
  /\ String.length (_sanitize_filename title)
     = List.length (filter (fun c => negb (PyStr.has_char c removed_characters))
                           (list_ascii_of_string title))
  /\ _sanitize_filename (_sanitize_filename title) = _sanitize_filename title.
Proof.
  assert (E : list_ascii_of_string (_sanitize_filename title)
              = filter (fun c => negb (PyStr.has_char c removed_characters))
                       (list_ascii_of_string title)).
  { unfold _sanitize_filename. rewrite sub_class_filter.
    apply filter_ext. intros c. now rewrite illegal_removed_characters. }
  split; [exact E|]. split; [|split].
  - rewrite E. apply Forall_forall. intros c Hc.
    apply filter_In in Hc as [_ Hc]. now apply negb_true_iff in Hc.
  - rewrite <- E. clear E. generalize (_sanitize_filename title) as s.
    induction s as [|c s IH]; simpl; [reflexivity | now rewrite IH].
  - rewrite <- (string_of_list_ascii_of_string (_sanitize_filename (_sanitize_filename title))).
    rewrite <- (string_of_list_ascii_of_string (_sanitize_filename title)) at 2.
    f_equal. unfold _sanitize_filename at 1. rewrite sub_class_filter, E.
    clear E. induction (list_ascii_of_string title) as [|a l IH]; simpl; [reflexivity|].
    rewrite <- illegal_removed_characters.
    destruct (Re.illegal a) eqn:Ea; simpl; [exact IH|].
    rewrite Ea. simpl. now rewrite IH.
Qed.

Example sanitize_acdc :
  _sanitize_filename "AC/DC: Back <in> Black? #1 | live*\" = "ACDC Back in Black 1  live".
Proof. reflexivity. Qed.

Example sanitize_keeps_latin1 :
  _sanitize_filename (String (ascii_of_N 233) "t" ++ String (ascii_of_N 34) "e")
  = String (ascii_of_N 233) "te".
Proof. reflexivity. Qed.

(** ** [int] on what [str] prints *)

Section IntOfStr.














End IntOfStr.

(** ** [_update_ffmpeg_progress] *)

Section ProgressFacts.



(** What a turn of the loop does, by the kind of line. *)
Lemma turn_by_line (line : string) (pbar : Pbar) :
  progress_turn line pbar
  = if ends_log line then Stop
    else match logged_value line with
         | Some t =>
             match PyFloat.true_divide t 1000000 with
             | Ok seconds =>
                 Again (pbar_update (PyFloat.sub seconds (n pbar)) pbar) true false
             | Err e => Uncaught e
             end
         | None => Again pbar false (line =? EmptyString)
         end.
Proof.
  unfold progress_turn, ends_log, logged_value.
  destruct (String.eqb_spec line EmptyString) as [->|N]; [reflexivity|].
  destruct (PyStr.contains "progress=end" line); [reflexivity|].
  destruct (PyStr.contains "out_time_ms=" line); [|reflexivity].
  destruct (PyStr.split "=" line) as [|? [|part1 ?]]; reflexivity.
Qed.


(** The only exception of the division by 1 000 000 is the overflow. *)
Lemma true_divide_error (t : Z) (e : string) :
  PyFloat.true_divide t 1000000 = Err e ->
  e = "integer division result too large for a float".
Proof.
  unfold PyFloat.true_divide. cbn [Z.eqb].
  destruct (SFdiv PyFloat.prec PyFloat.emax (PyFloat.exact t) (PyFloat.exact 1000000));
    intros H; inversion H; reflexivity.
Qed.



(** How the routine ends: by the first line that holds [progress=end] or
    reports a time out of range, if there is one. *)
Lemma progress_end (pbar : Pbar) (reads : list string) :
  finished (_update_ffmpeg_progress pbar reads)
  = match find stops reads with
    | Some line => ends_log line
    | None => false
    end
  /\ died (_update_ffmpeg_progress pbar reads)
     = match find stops reads with
       | Some line =>
           if ends_log line then None
           else Some "integer division result too large for a float"
       | None => None
       end
  /\ unread (_update_ffmpeg_progress pbar reads) = after_stop reads.
Proof.
  revert pbar. induction reads as [|line reads IH]; intros pbar; [now repeat split|].
  cbn [_update_ffmpeg_progress find after_stop]. rewrite turn_by_line.
  unfold stops, too_large.
  destruct (ends_log line) eqn:E; cbn [orb]; [rewrite E; now repeat split|].
  destruct (logged_value line) as [t|].
  - destruct (PyFloat.true_divide t 1000000) as [q|e] eqn:T.
    + cbn [finished died unread]. apply IH.
    + cbn [finished died unread]. rewrite E, (true_divide_error _ _ T).
      now repeat split.
  - cbn [finished died unread]. apply IH.
Qed.

Lemma existsb_find_none {A} (f : A -> bool) (l : list A) :
  existsb f l = false -> find f l = None.
Proof.
  induction l as [|a l IH]; cbn; [reflexivity|].
  destruct (f a); [discriminate | exact IH].
Qed.

End ProgressFacts.



Example progress_run :
  let r := _update_ffmpeg_progress tqdm
             [ "frame=10" ++ nl; out_time_ms_line 1500000; EmptyString;
               "out_time_ms=N/A" ++ nl; out_time_ms_line 4000000;
               "progress=end" ++ nl; out_time_ms_line 9000000 ] in
  map Ok (displayed r)
  = [PyFloat.true_divide 3 2; PyFloat.true_divide 4 1]
  /\ finished r = true /\ died r = None /\ sleeps r = 1
  /\ unread r = [out_time_ms_line 9000000].
Proof. vm_compute. repeat split. Qed.

(** [int] where it departs from [str.strip]: the separators U+001C to
    U+001F are not white space for it. *)
Example int_edge_cases :
  PyStr.int (" 12" ++ nl) = Some 12%Z
  /\ PyStr.int (String (ascii_of_N 160) "1_000") = Some 1000%Z
  /\ PyStr.int (String (ascii_of_N 28) "12") = None
  /\ PyStr.int "1__0" = None /\ PyStr.int "+" = None /\ PyStr.int "-7" = Some (-7)%Z.
Proof. vm_compute. repeat split. Qed.

(** ** The encoder commands *)

Lemma path_join_relative (a b : string) :
  prefix "/" b = false -> PyStr.path_join a b = dir_prefix a ++ b.
Proof.
  intros H. unfold PyStr.path_join, dir_prefix.
  assert (E : forall X : string,
             match b with String "/" _ => b | _ => X end = X).
  { intros X. destruct b as [|c r]; [reflexivity|].
    rewrite prefix_cons in H. cbn [prefix] in H.
    assert (Hc : Ascii.eqb "/" c = false) by (destruct r, (Ascii.eqb "/" c); auto).
    clear H. destruct c as [[] [] [] [] [] [] [] []]; try reflexivity.
    discriminate Hc. }
  rewrite E. destruct ((a =? EmptyString) || PyStr.ends_with_slash a).
  - reflexivity.
  - now rewrite append_assoc.
Qed.

Lemma prefix_head_absent (c : ascii) (s t : string) :
  PyStr.has_char c s = false -> prefix (String c t) s = false.
Proof.
  intros H. destruct s as [|a s]; [reflexivity|].
  rewrite has_char_cons in H. apply orb_false_iff in H as [H _].
  now rewrite prefix_cons, H.
Qed.

Lemma sanitized_no_slash (title : string) :
  PyStr.has_char "/" (_sanitize_filename title) = false.
Proof. now apply sanitize_no_illegal. Qed.

(** The output path of a download: the directory prefix, the sanitized
    title, the extension. *)
Lemma output_path_shape (path title ext : string) :
  PyStr.has_char "/" ext = false ->
  PyStr.path_join path (_sanitize_filename title ++ ext)
  = dir_prefix path ++ _sanitize_filename title ++ ext.
Proof.
  intros H. apply path_join_relative, prefix_head_absent.
  now rewrite has_char_app, sanitized_no_slash, H.
Qed.

(** C4, what the code does. The video-mode command holds the overwrite
    flag; the sound-mode command, for every download path and title, does
    not: an existing [<title>.mp3] is not overwritten. *)
Theorem overwrite_flag_in_video_command_only
    (path title progress_file video_filepath audio_filepath video_codec : string) :
  In overwrite_flag
     (video_command progress_file video_filepath audio_filepath video_codec
        (PyStr.path_join path (_sanitize_filename title ++ ".mp4")))
  /\ ~ In overwrite_flag
         (sound_command (PyStr.path_join path (_sanitize_filename title ++ ".mp3"))).
Proof.
  split.
  - right. left. reflexivity.
  - rewrite output_path_shape by reflexivity.
    unfold sound_command, overwrite_flag. cbn [In].
    intros H. repeat (destruct H as [H|H]; [try discriminate H|]); [|exact H].
    apply (f_equal String.length) in H. rewrite !length_app in H.
    cbn [String.length] in H. lia.
Qed.

(** ** What the methods leave alone *)

Create HintDb keeps.

Section Frame.

Context {fixed : bool} {okev : Event -> bool}.

Lemma keeps_ret {A} (a : A) : keeps fixed okev (ret a).
Proof. intros st. split; [now split|]. exists []. now rewrite app_nil_r. Qed.

Lemma keeps_raise {A} (e : string) : keeps fixed okev (@raise A e).
Proof. intros st. split; [now split|]. exists []. now rewrite app_nil_r. Qed.

Lemma keeps_hang {A} : keeps fixed okev (@hang A).
Proof. intros st. split; [now split|]. exists []. now rewrite app_nil_r. Qed.

Lemma keeps_sys_exit {A} : keeps fixed okev (@sys_exit A).
Proof. intros st. split; [now split|]. exists []. now rewrite app_nil_r. Qed.

Lemma keeps_lift {A} (r : result A) : keeps fixed okev (lift r).
Proof. destruct r; [apply keeps_ret | apply keeps_raise]. Qed.

Lemma keeps_log (e : Event) : okev e = true -> keeps fixed okev (log e).
Proof.
  intros H st. split; [now split|]. exists [e]. cbn. now rewrite H.
Qed.

Lemma keeps_log_all (evs : list Event) :
  forallb okev evs = true -> keeps fixed okev (log_all evs).
Proof. intros H st. split; [now split|]. now exists evs. Qed.

Lemma keeps_get_path : keeps fixed okev get_path.
Proof. intros st. split; [now split|]. exists []. now rewrite app_nil_r. Qed.

Lemma keeps_get_mode : keeps fixed okev get_mode.
Proof. intros st. split; [now split|]. exists []. now rewrite app_nil_r. Qed.

Lemma keeps_set_files (f : list string -> list string) : keeps fixed okev (set_files f).
Proof. intros st. split; [now split|]. exists []. cbn. now rewrite app_nil_r. Qed.

Lemma keeps_path_exists (p : string) : keeps fixed okev (path_exists p).
Proof. intros st. split; [now split|]. exists []. now rewrite app_nil_r. Qed.

Lemma keeps_os_remove (p : string) : keeps fixed okev (os_remove p).
Proof.
  intros st. unfold os_remove. destruct (mem p (files st)).
  - apply keeps_set_files.
  - split; [now split|]. exists []. now rewrite app_nil_r.
Qed.

(** Two computations in a row. *)
Lemma keeps_step {A B} (m : M A) (st : State) (k : M B) :
  keeps fixed okev m ->
  keeps fixed okev k ->
  (fixed = true ->
   self_mode (final_state (k (final_state (m st)))) = self_mode st
   /\ self_path (final_state (k (final_state (m st)))) = self_path st)
  /\ exists evs,
       trace (final_state (k (final_state (m st)))) = (trace st ++ evs)%list
       /\ forallb okev evs = true.
Proof.
  intros Hm Hk.
  destruct (Hm st) as [Fm (e1 & T1 & O1)].
  destruct (Hk (final_state (m st))) as [Fk (e2 & T2 & O2)].
  split.
  - intros F. destruct (Fm F) as [E1 E2]. destruct (Fk F) as [E3 E4].
    split; congruence.
  - exists (e1 ++ e2)%list. rewrite T2, T1, app_assoc, forallb_app, O1, O2. now split.
Qed.

Lemma keeps_bind {A B} (m : M A) (k : A -> M B) :
  keeps fixed okev m -> (forall a, keeps fixed okev (k a)) ->
  keeps fixed okev (bind m k).
Proof.
  intros Hm Hk st. unfold bind.
  destruct (m st) as [a st'|e st'|st'|st'] eqn:E;
    try (specialize (Hm st); rewrite E in Hm; exact Hm).
  assert (S := keeps_step m st (k a) Hm (Hk a)).
  now rewrite E in S.
Qed.

Lemma keeps_try_except {A} (body : M A) (handler : string -> M A) :
  keeps fixed okev body -> (forall e, keeps fixed okev (handler e)) ->
  keeps fixed okev (try_except body handler).
Proof.
  intros Hm Hk st. unfold try_except.
  destruct (body st) as [a st'|e st'|st'|st'] eqn:E;
    try (specialize (Hm st); rewrite E in Hm; exact Hm).
  assert (S := keeps_step body st (handler e) Hm (Hk e)).
  now rewrite E in S.
Qed.

Lemma keeps_try_finally {A} (body : M A) (fin : M unit) :
  keeps fixed okev body -> keeps fixed okev fin ->
  keeps fixed okev (try_finally body fin).
Proof.
  intros Hm Hk st. unfold try_finally.
  assert (S := keeps_step body st fin Hm Hk).
  destruct (body st) as [a st'|e st'|st'|st'] eqn:E; cbn [final_state] in *;
    try (destruct (fin st') as [[] ?|? ?|?|?]; exact S).
  specialize (Hm st). now rewrite E in Hm.
Qed.

End Frame.

#[local] Hint Resolve keeps_ret keeps_raise keeps_hang keeps_sys_exit keeps_lift
  keeps_get_path keeps_get_mode keeps_set_files keeps_path_exists keeps_os_remove
  : keeps.

(** Breaks a goal [keeps _ _ m] down along the shape of [m]. *)
Ltac keeps_tac :=
  repeat first
    [ solve [auto with keeps]
    | apply keeps_log; solve [auto]
    | apply keeps_bind; [|intros ?]
    | apply keeps_try_except; [|intros ?]
    | apply keeps_try_finally
    | match goal with
      | |- keeps _ _ (match ?x with _ => _ end) => destruct x
      | |- keeps _ _ (let _ := _ in _) => cbv zeta
      end ].

Section DownloadFrame.

Variable env : Env.
Context {fixed : bool} {okev : Event -> bool}.
Hypothesis ok_print : forall s, okev (Print s) = true.
Hypothesis ok_exec : forall argv, okev (Exec argv) = true.
Hypothesis ok_thread : forall e, is_thread e = true -> okev e = true.

Lemma keeps_print (s : string) : keeps fixed okev (print s).
Proof. apply keeps_log, ok_print. Qed.

Lemma keeps_makedirs (d : string) : keeps fixed okev (makedirs env d).
Proof.
  unfold makedirs. apply keeps_bind; [apply keeps_lift|]. intros _ st.
  split; [now split|]. exists []. cbn. now rewrite app_nil_r.
Qed.

Hint Resolve keeps_print keeps_makedirs : keeps.

Lemma keeps_create_file (p : string) : keeps fixed okev (create_file p).
Proof. apply keeps_set_files. Qed.

Hint Resolve keeps_create_file : keeps.

Lemma keeps_stream_download (s : Stream) (d f : string) :
  keeps fixed okev (stream_download s d f).
Proof. unfold stream_download. keeps_tac. Qed.

Lemma keeps_NamedTemporaryFile : keeps fixed okev (NamedTemporaryFile env).
Proof. unfold NamedTemporaryFile. keeps_tac. Qed.

Lemma keeps_thread_sleeps (k : nat) : keeps fixed okev (log_all (repeat Thread_sleep k)).
Proof.
  apply keeps_log_all. induction k as [|k IH]; [reflexivity|].
  cbn [repeat forallb]. now rewrite IH, ok_thread.
Qed.

Lemma keeps_run_merge (command : list string) : keeps fixed okev (run_merge env command).
Proof.
  unfold run_merge. apply keeps_bind; [now apply keeps_log|]. intros _.
  destruct (ffmpeg env command) as [e| |rc err progress].
  - apply keeps_bind; [apply keeps_log; now apply ok_thread | intros _; apply keeps_raise].
  - apply keeps_hang.
  - apply keeps_bind; [destruct (rc =? 0)%Z; [apply keeps_set_files | apply keeps_ret]|].
    intros _. cbv zeta. apply keeps_bind; [apply keeps_thread_sleeps | intros _].
    destruct (finished _); [apply keeps_ret|].
    destruct (died _); [|apply keeps_hang].
    apply keeps_bind; [apply keeps_log; now apply ok_thread | intros _; apply keeps_ret].
Qed.

Lemma keeps_run_convert (command : list string) :
  keeps fixed okev (run_convert env command).
Proof. unfold run_convert. keeps_tac. Qed.

Lemma keeps_cleanup (p v a : string) : keeps fixed okev (cleanup p v a).
Proof. unfold cleanup. keeps_tac. Qed.

Lemma keeps_caption_block (yt : YouTubeObj) (title lang : string) :
  keeps fixed okev (caption_block yt title lang).
Proof. unfold caption_block. keeps_tac. Qed.

Hint Resolve keeps_stream_download keeps_NamedTemporaryFile keeps_run_merge
  keeps_run_convert keeps_cleanup keeps_caption_block : keeps.

Lemma keeps_video_branch (yt : YouTubeObj) (title : string) :
  keeps fixed okev (video_branch env yt title).
Proof. unfold video_branch. keeps_tac. Qed.

Lemma keeps_sound_branch (yt : YouTubeObj) (title : string) :
  keeps fixed okev (sound_branch env yt title).
Proof. unfold sound_branch. keeps_tac. Qed.

Hint Resolve keeps_video_branch keeps_sound_branch : keeps.

Lemma keeps_mode_branch (yt : YouTubeObj) (title : string) :
  keeps fixed okev (mode_branch env yt title).
Proof. unfold mode_branch. keeps_tac. Qed.

Hint Resolve keeps_mode_branch : keeps.

Lemma keeps_download_video_body (url lang : string) :
  keeps fixed okev (download_video_body env url lang).
Proof. unfold download_video_body. keeps_tac. Qed.

End DownloadFrame.

(** ** The main loop *)

Section LoopFacts.

Variable env : Env.

Lemma download_video_unfold (url lang : string) :
  _download_video env url lang
  = (log (Call_download_video url lang);; download_video_body env url lang).
Proof. reflexivity. Qed.

Lemma keeps_download_video (fixed : bool) (okev : Event -> bool) (url lang : string) :
  (forall s, okev (Print s) = true) ->
  (forall argv, okev (Exec argv) = true) ->
  (forall e, is_thread e = true -> okev e = true) ->
  okev (Call_download_video url lang) = true ->
  keeps fixed okev (_download_video env url lang).
Proof.
  intros Hp He Ht Hc. rewrite download_video_unfold.
  apply keeps_bind; [now apply keeps_log|]. intros _.
  now apply keeps_download_video_body.
Qed.

(** A command line: the mode the specification gives, one message, and
    nothing else. *)
Lemma loop_body_command (line : string) (st : State) :
  is_command line = true ->
  loop_body env line st
  = Ret (if command_of line =? "/exit" then Break else Continue)
        (emit [Print (command_message (command_of line))]
              (with_mode (mode_step (self_mode st) line) st)).
Proof.
  unfold is_command, loop_body, mode_step, command_message, command_of.
  generalize (PyStr.lower (PyStr.strip line)) as c. intros c H.
  destruct (String.eqb_spec c "/exit") as [E|_]; [subst c; reflexivity|].
  destruct (String.eqb_spec c "/video") as [E|_]; [subst c; reflexivity|].
  destruct (String.eqb_spec c "/sound") as [E|_]; [subst c; reflexivity|].
  discriminate H.
Qed.

Lemma loop_body_blank (line : string) (st : State) :
  is_command line = false -> PyStr.strip line = EmptyString ->
  loop_body env line st = Ret Continue st.
Proof.
  unfold is_command, loop_body, command_of. intros H E. rewrite E in *.
  reflexivity.
Qed.

(** Any other line: the stripped line goes to [_download_video]. *)
Lemma loop_body_url (line : string) (st : State) :
  is_command line = false -> (PyStr.strip line =? EmptyString) = false ->
  loop_body env line st
  = (_download_video env (PyStr.strip line) "ko";;
     mode <- get_mode;;
     print (nl ++ "Current mode: " ++ mode_name mode);;
     ret Continue) st.
Proof.
  unfold is_command, loop_body, command_of.
  set (c := PyStr.lower (PyStr.strip line)). intros H E.
  apply orb_false_iff in H as [H H3]. apply orb_false_iff in H as [H1 H2].
  now rewrite H1, H2, H3, E.
Qed.



Lemma main_loop_cons (line : string) (rest : list string) (st : State) :
  main_loop env (line :: rest) st
  = match loop_body env line
            (emit [Prompt (nl ++ "Enter YouTube URL or command: ")] st) with
    | Ret Continue st' => main_loop env rest st'
    | Ret Break st' => Ret tt st'
    | Raise e st' => Raise e st'
    | SysExit st' => SysExit st'
    | Hang st' => Hang st'
    end.
Proof.
  cbn [main_loop]. unfold bind at 1. cbn [log]. unfold bind at 1, emit.
  destruct (loop_body env line _) as [[] ?|? ?|?|?]; reflexivity.
Qed.




Lemma keeps_input (fixed : bool) (okev : Event -> bool) (prompt : string)
      (stdin : list string) :
  okev (Prompt prompt) = true -> keeps fixed okev (input prompt stdin).
Proof. intros H. unfold input. keeps_tac. Qed.

Lemma keeps_check_dependencies (fixed : bool) (okev : Event -> bool)
      (stdin : list string) :
  (forall s, okev (Print s) = true) -> (forall s, okev (Prompt s) = true) ->
  keeps fixed okev (_check_dependencies env stdin).
Proof.
  intros Hp Hi.
  assert (A : forall l, keeps fixed okev (ask_exit l)).
  { intros l. unfold ask_exit. apply keeps_bind; [now apply keeps_input|].
    intros r. destruct (_ =? _); auto with keeps. }
  unfold _check_dependencies.
  apply keeps_bind.
  - destruct (env_which_ffmpeg env); [apply keeps_ret|].
    repeat (apply keeps_bind; [now apply keeps_log | intros _]). apply A.
  - intros l. destruct (_ ++ _)%list; [apply keeps_ret|].
    repeat (apply keeps_bind; [now apply keeps_log | intros _]). apply A.
Qed.

Lemma keeps_print_instructions (fixed : bool) (okev : Event -> bool) :
  (forall s, okev (Print s) = true) -> keeps fixed okev _print_instructions.
Proof.
  intros Hp. unfold _print_instructions.
  repeat (apply keeps_bind; [now apply keeps_log | intros _]).
  apply keeps_bind; [apply keeps_get_mode | intros m; now apply keeps_log].
Qed.

Lemma keeps_set_mode (okev : Event -> bool) (m : string) :
  keeps false okev (set_mode m).
Proof. intros st. split; [discriminate|]. exists []. cbn. now rewrite app_nil_r. Qed.

Lemma keeps_loop_body (okev : Event -> bool) (line : string) :
  (forall s, okev (Print s) = true) -> (forall argv, okev (Exec argv) = true) ->
  (forall e, is_thread e = true -> okev e = true) ->
  (forall u l, okev (Call_download_video u l) = true) ->
  keeps false okev (loop_body env line).
Proof.
  intros Hp He Ht Hc. unfold loop_body.
  repeat match goal with
         | |- keeps _ _ (if ?b then _ else _) => destruct b
         end;
    repeat first
      [ apply keeps_ret | apply keeps_set_mode | apply keeps_get_mode
      | apply keeps_log; solve [auto]
      | apply keeps_download_video; solve [auto]
      | apply keeps_bind; [|intros ?] ].
Qed.

Lemma keeps_main_loop (okev : Event -> bool) (stdin : list string) :
  (forall s, okev (Print s) = true) -> (forall s, okev (Prompt s) = true) ->
  (forall argv, okev (Exec argv) = true) ->
  (forall e, is_thread e = true -> okev e = true) ->
  (forall u l, okev (Call_download_video u l) = true) ->
  keeps false okev (main_loop env stdin).
Proof.
  intros Hp Hi He Ht Hc. induction stdin as [|line rest IH]; cbn [main_loop].
  - apply keeps_bind; [now apply keeps_log | intros; apply keeps_raise].
  - apply keeps_bind; [now apply keeps_log | intros _].
    apply keeps_bind; [now apply keeps_loop_body|].
    intros []; [exact IH | apply keeps_ret].
Qed.

Lemma keeps_run (okev : Event -> bool) (stdin : list string) :
  (forall s, okev (Print s) = true) -> (forall s, okev (Prompt s) = true) ->
  (forall argv, okev (Exec argv) = true) ->
  (forall e, is_thread e = true -> okev e = true) ->
  (forall u l, okev (Call_download_video u l) = true) ->
  keeps false okev (run env stdin).
Proof.
  intros Hp Hi He Ht Hc. unfold run.
  apply keeps_bind; [now apply keeps_check_dependencies | intros l].
  apply keeps_bind; [now apply keeps_print_instructions | intros _].
  now apply keeps_main_loop.
Qed.

Lemma keeps_new_events {A} (fixed : bool) (okev : Event -> bool) (m : M A) (st : State) :
  keeps fixed okev m -> forallb okev (new_events st (m st)) = true.
Proof.
  intros K. destruct (K st) as [_ (evs & T & O)]. unfold new_events.
  rewrite T, skipn_app, skipn_all, Nat.sub_diag. exact O.
Qed.

End LoopFacts.

Lemma new_events_Ret {A} (a : A) (evs : list Event) (st st' : State) :
  trace st' = (trace st ++ evs)%list -> new_events st (Ret a st') = evs.
Proof.
  intros E. unfold new_events. cbn [final_state]. rewrite E.
  now rewrite skipn_app, skipn_all, Nat.sub_diag.
Qed.


Example video_then_sound :
  self_mode (final_state (main_loop demo_env ["/video"; "  /SOUND "; "/exit"]
                                    (demo_state "S"))) = "S"
  /\ self_mode (final_state (main_loop demo_env ["/Video"; " "; "https://youtu.be/x"; "/exit"]
                                       (demo_state "S"))) = "V".
Proof. split; vm_compute; reflexivity. Qed.

(** C10. A line whose stripped, lower-case form is [/exit], [/video] or
    [/sound] is handled as that command: the turn of the loop ends at
    once, breaking out for [/exit] and going round again for the other
    two, with the mode the command asks for and the command's message as
    the only event; no download operation is entered and the files are
    untouched. *)
Theorem command_lines_are_commands (env : Env) (line : string) (st : State) :
  is_command line = true ->
  loop_body env line st
  = Ret (if command_of line =? "/exit" then Break else Continue)
        (emit [Print (command_message (command_of line))]
              (with_mode (mode_step (self_mode st) line) st))
  /\ forallb (fun e => negb (is_call e)) (new_events st (loop_body env line st)) = true.
Proof.
  intros C. split; [now apply loop_body_command|].
  rewrite (loop_body_command env _ _ C).
  erewrite new_events_Ret; [|reflexivity]. reflexivity.
Qed.

Lemma command_lines_are_commands_witness :
  loop_body demo_env "  /EXIT " (demo_state "V")
  = Ret Break (emit [Print "Exiting program."] (demo_state "V"))
  /\ loop_body demo_env "/Video" (demo_state "S")
     = Ret Continue (emit [Print "Mode changed to Video."] (demo_state "V")).
Proof.
  split.
  - exact (proj1 (command_lines_are_commands demo_env "  /EXIT " (demo_state "V") eq_refl)).
  - exact (proj1 (command_lines_are_commands demo_env "/Video" (demo_state "S") eq_refl)).
Defined.

(** ** [_download_playlist] *)

Lemma search_list_none (url : string) :
  PyStr.contains "list=" url = false -> Re.search_list url = None.
Proof.
  induction url as [|c url IH]; cbn [PyStr.contains Re.search_list]; intros H;
    apply orb_false_iff in H as [P H]; unfold Re.match_list_here; rewrite P.
  - reflexivity.
  - exact (IH H).
Qed.

(** C6. On a URL that holds no [list=], [_download_playlist] fails at
    the pattern match, before anything is asked of the playlist
    collaborator (the outcome is the same in every world): it reports the
    error and returns, and [_download_video] is not entered. *)
Theorem playlist_without_list_parameter (env : Env) (url : string) (st : State) :
  PyStr.contains "list=" url = false ->
  _download_playlist env url st
  = Ret tt (emit [Print "Error processing playlist: 'NoneType' object has no attribute 'group'"]
                 (emit [Call_download_playlist url] st))
  /\ filter is_video_call (new_events st (_download_playlist env url st)) = [].
Proof.
  intros H.
  assert (E : _download_playlist env url st
              = Ret tt (emit [Print "Error processing playlist: 'NoneType' object has no attribute 'group'"]
                             (emit [Call_download_playlist url] st))).
  { unfold _download_playlist, bind, try_except. cbn [log].
    rewrite (search_list_none _ H). reflexivity. }
  split; [exact E|]. rewrite E.
  rewrite (new_events_Ret tt
             [Call_download_playlist url;
              Print "Error processing playlist: 'NoneType' object has no attribute 'group'"]).
  - reflexivity.
  - cbn [emit trace]. now rewrite <- app_assoc.
Qed.

Lemma playlist_without_list_parameter_witness :
  filter is_video_call
         (new_events (demo_state "S")
            (_download_playlist demo_env "https://www.youtube.com/watch?v=dQw4w9WgXcQ"
                                (demo_state "S"))) = [].
Proof.
  exact (proj2 (playlist_without_list_parameter demo_env
                  "https://www.youtube.com/watch?v=dQw4w9WgXcQ" (demo_state "S")
                  eq_refl)).
Defined.

Example playlist_with_list_parameter :
  Re.search_list "https://www.youtube.com/watch?v=abc&list=PL_x-9&index=2" = Some "PL_x-9".
Proof. reflexivity. Qed.

(** ** The paths of a download *)

Section PathFacts.

Variables path raw_title : string.

Let title := _sanitize_filename raw_title.

Lemma append_inj_l (a x y : string) : a ++ x = a ++ y -> x = y.
Proof. induction a as [|c a IH]; cbn [append]; intros H; [exact H|]. inversion H. auto. Qed.

Lemma prefix_app_cancel (a b c : string) : prefix (a ++ b) (a ++ c) = prefix b c.
Proof.
  induction a as [|x a IH]; cbn [append]; [reflexivity|].
  now rewrite prefix_cons, Ascii.eqb_refl, IH.
Qed.

Lemma prefix_has_char (c : ascii) (needle hay : string) :
  prefix needle hay = true -> PyStr.has_char c needle = true ->
  PyStr.has_char c hay = true.
Proof.
  intros P. destruct (prefix_split _ _ P) as [post ->].
  rewrite has_char_app. intros ->. reflexivity.
Qed.

Lemma ends_with_slash_app (a b : string) (c : ascii) :
  PyStr.ends_with_slash (a ++ b ++ String c EmptyString) = Ascii.eqb c "/".
Proof.
  unfold PyStr.ends_with_slash. rewrite !list_ascii_app, !rev_app_distr. reflexivity.
Qed.

Lemma temp_dir_shape : temp_dir_of path = dir_prefix path ++ ".temp".
Proof. unfold temp_dir_of. now apply path_join_relative. Qed.

Lemma dir_prefix_temp_dir : dir_prefix (temp_dir_of path) = dir_prefix path ++ ".temp/".
Proof.
  rewrite temp_dir_shape. unfold dir_prefix at 1.
  change ".temp" with (".tem" ++ "p") at 2.
  rewrite (ends_with_slash_app (dir_prefix path) ".tem" "p").
  change (".tem" ++ "p") with ".temp".
  destruct (String.eqb_spec (dir_prefix path ++ ".temp") EmptyString) as [E|_].
  - apply (f_equal String.length) in E. rewrite length_app in E.
    cbn [String.length] in E. lia.
  - cbn [orb]. change (Ascii.eqb "p" "/") with false. cbn iota.
    now rewrite append_assoc.
Qed.

Lemma temp_file_shape (ext : string) :
  PyStr.has_char "/" ext = false ->
  PyStr.path_join (temp_dir_of path) (title ++ ext)
  = dir_prefix path ++ ".temp/" ++ title ++ ext.
Proof.
  intros H. unfold title. rewrite output_path_shape by exact H.
  now rewrite dir_prefix_temp_dir, append_assoc.
Qed.

Lemma video_filepath_shape :
  video_filepath_of path title = dir_prefix path ++ ".temp/" ++ title ++ "_video.mp4".
Proof. now apply temp_file_shape. Qed.

Lemma audio_filepath_shape :
  audio_filepath_of path title = dir_prefix path ++ ".temp/" ++ title ++ "_audio.mp4".
Proof. now apply temp_file_shape. Qed.

Lemma video_audio_differ : video_filepath_of path title <> audio_filepath_of path title.
Proof.
  rewrite video_filepath_shape, audio_filepath_shape. intros E.
  do 3 apply append_inj_l in E. discriminate E.
Qed.

(** A file named by the title alone is in the download directory, not
    inside [.temp]. *)
Lemma output_outside_temp (ext : string) :
  PyStr.has_char "/" ext = false ->
  inside (temp_dir_of path) (PyStr.path_join path (title ++ ext)) = false.
Proof.
  intros H. unfold inside, title.
  rewrite temp_dir_shape, output_path_shape by exact H.
  rewrite append_assoc, prefix_app_cancel.
  destruct (prefix (".temp" ++ "/") (_sanitize_filename raw_title ++ ext)) eqn:P;
    [|reflexivity].
  apply (prefix_has_char "/") in P; [|reflexivity].
  now rewrite has_char_app, sanitized_no_slash, H in P.
Qed.

Lemma output_not_temp_file (ext ext' : string) :
  PyStr.has_char "/" ext = false -> PyStr.has_char "/" ext' = false ->
  PyStr.path_join path (title ++ ext)
  <> PyStr.path_join (temp_dir_of path) (title ++ ext').
Proof.
  intros H H' E. rewrite (temp_file_shape _ H') in E. unfold title in E.
  rewrite output_path_shape in E by exact H.
  apply append_inj_l in E.
  apply (f_equal (PyStr.has_char "/")) in E.
  rewrite has_char_app, sanitized_no_slash, H in E. discriminate E.
Qed.

Lemma temp_files_inside_temp :
  inside (temp_dir_of path) (video_filepath_of path title) = true
  /\ inside (temp_dir_of path) (audio_filepath_of path title) = true.
Proof.
  unfold inside. rewrite video_filepath_shape, audio_filepath_shape, temp_dir_shape.
  rewrite !append_assoc.
  change (".temp" ++ "/") with ".temp/".
  rewrite <- !(append_assoc (dir_prefix path) ".temp/").
  split; apply prefix_app.
Qed.

End PathFacts.

(** ** [_download_video] *)

Section DownloadFacts.

Variable env : Env.

(** The caption block always returns: it adds its message and, when a
    caption was downloaded, the caption file. *)
Lemma caption_block_returns (yt : YouTubeObj) (title lang : string) (st : State) :
  caption_block yt title lang st
  = Ret tt (emit [Print (caption_message yt lang)]
              (with_files (caption_files yt lang (self_path st) (files st)) st)).
Proof.
  unfold caption_block, caption_message, caption_files, try_except.
  destruct (yt_captions yt lang) as [e| |file [[]|e]]; reflexivity.
Qed.

(** Whatever the captions did, the mode branch is run next. *)
Lemma download_video_reaches_mode_branch
      (url lang : string) (yt : YouTubeObj) (raw_title : string) (st : State) :
  resolved env url = Some (yt, raw_title) ->
  _download_video env url lang st
  = try_except
      (mode_branch env yt (_sanitize_filename raw_title))
      (fun err => print ("An error occurred during video processing: " ++ err))
      (after_captions yt raw_title url lang st).
Proof.
  unfold resolved. intros R.
  destruct (YouTube env url) as [yt'|] eqn:Y; [|discriminate].
  destruct (yt_title yt') as [raw|] eqn:T; [|discriminate].
  inversion R; subst yt' raw. clear R.
  unfold _download_video, after_captions.
  unfold bind at 1. cbn [log].
  unfold try_except. unfold bind at 1. rewrite Y. cbn [lift ret].
  unfold bind at 1. rewrite T. cbn [lift ret]. cbv zeta.
  unfold bind at 1. cbn [print log].
  unfold bind at 1. cbn [print log].
  unfold bind at 1. rewrite caption_block_returns.
  reflexivity.
Qed.

(** The sound branch when the media part goes well. *)
Lemma sound_branch_success (yt : YouTubeObj) (title : string) (st : State) :
  sound_succeeds env yt title (self_path st) = true ->
  sound_branch env yt title st
  = Ret tt
      (emit [Print ("Successfully created " ++ title ++ ".mp3")]
         (with_files (add (mp3_of (self_path st) title) (files st))
            (emit [Exec (sound_command (mp3_of (self_path st) title))]
               (emit [Print "Streaming audio to ffmpeg for MP3 conversion..."] st)))).
Proof.
  unfold sound_succeeds. intros H.
  destruct (yt_audio_only yt) as [[s|]|] eqn:A; try discriminate H.
  destruct (yt_length yt) as [len|] eqn:L; try discriminate H.
  destruct (stream_to_buffer s) as [buf|] eqn:B; try discriminate H.
  destruct (ffmpeg env (sound_command (mp3_of (self_path st) title)))
    as [e| |rc err progress] eqn:F; try discriminate H.
  destruct rc; try discriminate H. clear H.
  unfold sound_branch. unfold bind at 1. rewrite A. cbn [lift ret].
  unfold bind at 1. cbn [print log]. rewrite B, L.
  unfold bind at 1. cbn [lift ret].
  unfold bind at 1. cbn [get_path self_path].
  unfold bind at 1. cbn [lift ret]. cbv zeta.
  unfold try_except, run_convert.
  unfold bind at 1. unfold bind at 1. cbn [log].
  unfold mp3_of in F. cbn [self_path]. rewrite F.
  reflexivity.
Qed.

(** The cleanup block removes the three temporary files. *)
Lemma cleanup_removes (tmp v a : string) (st : State) :
  mem tmp (files st) = true -> mem v (files st) = true -> mem a (files st) = true ->
  tmp <> v -> tmp <> a -> v <> a ->
  cleanup tmp v a st
  = Ret tt (emit [Print "Temporary files cleaned up."]
              (with_files (del a (del v (del tmp (files st)))) st)).
Proof.
  intros Mt Mv Ma Ntv Nta Nva.
  apply String.eqb_neq in Ntv, Nta, Nva.
  assert (Mv1 : mem v (del tmp (files st)) = true)
    by now rewrite mem_del, String.eqb_sym, Ntv, Mv.
  assert (Ma2 : mem a (del v (del tmp (files st))) = true)
    by now rewrite !mem_del, String.eqb_sym, Nva, String.eqb_sym, Nta, Ma.
  unfold cleanup.
  unfold bind at 1. unfold os_remove at 1. rewrite Mt. cbn [set_files].
  unfold bind at 1. cbn [path_exists files dirs]. rewrite Mv1. cbn [orb].
  unfold bind at 1. unfold os_remove at 1. cbn [files]. rewrite Mv1. cbn [set_files].
  unfold bind at 1. cbn [path_exists files dirs]. rewrite Ma2. cbn [orb].
  unfold bind at 1. unfold os_remove at 1. cbn [files]. rewrite Ma2. cbn [set_files].
  reflexivity.
Qed.

(** A video-mode download that reaches the merge stage: the state in
    which the encoder is started holds the two stream files and the
    progress log. *)
Lemma video_branch_at_merge (yt : YouTubeObj) (raw_title : string) (st : State) :
  let title := _sanitize_filename raw_title in
  let path := self_path st in
  let command := merge_command env path title (progress_file_of env) in
  merge_reached env yt title path (files st) (dirs st) = true ->
  exists st_m,
    video_branch env yt title st
    = merge_block env command
        ("Successfully merged and saved to " ++ mp4_of path title)
        (progress_file_of env) (video_filepath_of path title)
        (audio_filepath_of path title) st_m
    /\ files st_m
       = add (progress_file_of env)
           (add (audio_filepath_of path title)
              (add (video_filepath_of path title) (files st)))
    /\ self_path st_m = self_path st /\ self_mode st_m = self_mode st
    /\ exists evs, trace st_m = (trace st ++ evs)%list
                   /\ forallb (fun e => negb (is_exec e || is_call e)) evs = true.
Proof.
  intros title path command. unfold merge_reached.
  destruct (yt_video_stream yt) as [[vs|]|] eqn:V; try discriminate.
  destruct (yt_audio_only yt) as [[aus|]|] eqn:A; try discriminate.
  destruct (yt_length yt) as [len|] eqn:L; try discriminate.
  destruct (env_makedirs env (temp_dir_of path)) as [[]|] eqn:D; try discriminate.
  destruct (download vs) as [[]|] eqn:Dv; try discriminate.
  destruct (download aus) as [[]|] eqn:Da; try discriminate.
  destruct (env_tempfile env) as [tmp|] eqn:T; try discriminate.
  intros Fresh. apply negb_true_iff in Fresh.
  unfold command, merge_command, progress_file_of. rewrite T.
  unfold video_branch.
  unfold bind at 1. rewrite V. cbn [lift ret].
  unfold bind at 1. rewrite A. cbn [lift ret].
  unfold bind at 1. cbn [get_path].
  unfold bind at 1. unfold makedirs at 1. unfold bind at 1.
  fold path. fold (temp_dir_of path). rewrite D. cbn [lift ret].
  unfold bind at 1. cbn [print log].
  unfold bind at 1. unfold stream_download at 1. rewrite Dv.
  unfold bind at 1. cbn [create_file set_files ret].
  unfold bind at 1. cbn [print log].
  unfold bind at 1. cbn [print log].
  unfold bind at 1. unfold stream_download at 1. rewrite Da.
  unfold bind at 1. cbn [create_file set_files ret files].
  unfold bind at 1. cbn [print log].
  unfold bind at 1. cbn [print log].
  unfold bind at 1. unfold NamedTemporaryFile at 1.
  unfold bind at 1. rewrite T. cbn [lift ret].
  unfold bind at 1. cbn [path_exists files dirs].
  fold (video_filepath_of path title). fold (audio_filepath_of path title).
  rewrite Fresh.
  unfold bind at 1. cbn [create_file set_files ret files].
  unfold bind at 1. rewrite L. cbn [lift ret].
  eexists. split; [reflexivity|].
  cbn [files self_path self_mode trace].
  split; [reflexivity|]. split; [reflexivity|]. split; [reflexivity|].
  rewrite <- !app_assoc. eexists. split; [reflexivity|]. reflexivity.
Qed.

(** The merge: it blocks, or it returns with the encoder's output
    added to the files when the encoder exited with code 0. *)
Lemma merge_outcome (command : list string) (ok_msg : string) (st : State) :
  let body := try_except
                (r <- run_merge env command;;
                 if (fst r =? 0)%Z then print ok_msg
                 else print ("Error during ffmpeg merging: " ++ snd r))
                (fun e => print ("An error occurred during ffmpeg process: " ++ e)) in
  if merge_hangs env command then exists s, body st = Hang s
  else exists s, body st = Ret tt s
                 /\ files s = files_after_encoder env command (files st)
                 /\ self_path s = self_path st.
Proof.
  intros body. subst body.
  unfold merge_hangs, polling, files_after_encoder.
  unfold try_except, run_merge, bind, log, log_all, raise, hang, print, log,
    create_file, set_files, ret.
  destruct (ffmpeg env command) as [e| |rc err progress] eqn:F.
  - eexists. split; [reflexivity|]. now cbn.
  - eexists. reflexivity.
  - destruct (finished (_update_ffmpeg_progress tqdm progress)) eqn:Fin;
      [|destruct (died (_update_ffmpeg_progress tqdm progress)) eqn:D];
      cbn [negb andb];
      destruct rc as [|p|p]; cbn [Z.eqb fst snd];
        eexists; try reflexivity; (split; [reflexivity | now cbn]).
Qed.

Lemma no_block_no_hang (command : list string) :
  encoder_blocks env command = false -> merge_hangs env command = false.
Proof.
  unfold encoder_blocks, merge_hangs, polling.
  destruct (ffmpeg env command); try easy.
  now intros ->%negb_false_iff.
Qed.

(** The merge and the cleanup: unless the encoder or the polling thread
    blocks, the block returns and the three temporary files are gone. *)
Lemma merge_then_cleanup (command : list string) (ok_msg : string)
      (tmp v a : string) (st : State) :
  mem tmp (files st) = true -> mem v (files st) = true -> mem a (files st) = true ->
  tmp <> v -> tmp <> a -> v <> a ->
  let r := merge_block env command ok_msg tmp v a st in
  if merge_hangs env command then is_hang r = true
  else returned r = true
       /\ files (final_state r)
          = del a (del v (del tmp (files_after_encoder env command (files st))))
       /\ self_path (final_state r) = self_path st.
Proof.
  intros Mt Mv Ma Ntv Nta Nva r.
  assert (O := merge_outcome command ok_msg st). cbv zeta in O.
  assert (Keep : forall p, mem p (files st) = true ->
                           mem p (files_after_encoder env command (files st)) = true).
  { intros p Hp. unfold files_after_encoder.
    destruct (ffmpeg env command) as [| |[|?|?] ? ?]; try exact Hp.
    rewrite mem_add, Hp. apply orb_true_r. }
  destruct (merge_hangs env command).
  - destruct O as [s O]. subst r. unfold merge_block, try_finally. now rewrite O.
  - destruct O as (s & O & Fs & Ps). subst r. unfold merge_block, try_finally.
    rewrite O.
    cbn [final_state]. rewrite cleanup_removes; try assumption;
      try (rewrite Fs; now apply Keep).
    cbn. now rewrite Fs, Ps.
Qed.

Lemma mode_branch_sound (yt : YouTubeObj) (title : string) (st : State) :
  self_mode st = "S" -> mode_branch env yt title st = sound_branch env yt title st.
Proof. intros H. unfold mode_branch, bind, get_mode. now rewrite H. Qed.

Lemma mode_branch_video (yt : YouTubeObj) (title : string) (st : State) :
  self_mode st = "V" -> mode_branch env yt title st = video_branch env yt title st.
Proof. intros H. unfold mode_branch, bind, get_mode. now rewrite H. Qed.

(** A sound-mode download whose media part goes well. *)
Lemma sound_download_success
      (url lang : string) (yt : YouTubeObj) (raw_title : string) (st : State) :
  let title := _sanitize_filename raw_title in
  let mp3 := mp3_of (self_path st) title in
  resolved env url = Some (yt, raw_title) ->
  self_mode st = "S" ->
  sound_succeeds env yt title (self_path st) = true ->
  _download_video env url lang st
  = Ret tt
      (emit [Print ("Successfully created " ++ title ++ ".mp3")]
         (with_files (add mp3 (caption_files yt lang (self_path st) (files st)))
            (emit [Exec (sound_command mp3)]
               (emit [Print "Streaming audio to ffmpeg for MP3 conversion..."]
                  (after_captions yt raw_title url lang st))))).
Proof.
  intros title mp3 R Hm Hs.
  rewrite (download_video_reaches_mode_branch _ _ _ _ _ R).
  unfold try_except. rewrite mode_branch_sound by exact Hm.
  rewrite sound_branch_success by exact Hs. reflexivity.
Qed.

(** A video-mode download that reaches the merge stage. *)
Lemma video_download_outcome
      (url lang : string) (yt : YouTubeObj) (raw_title : string) (st : State) :
  let title := _sanitize_filename raw_title in
  let path := self_path st in
  let tmp := progress_file_of env in
  let v := video_filepath_of path title in
  let a := audio_filepath_of path title in
  let fs := caption_files yt lang path (files st) in
  let command := merge_command env path title tmp in
  let r := _download_video env url lang st in
  resolved env url = Some (yt, raw_title) ->
  self_mode st = "V" ->
  merge_reached env yt title path fs (dirs st) = true ->
  tmp <> v /\ tmp <> a
  /\ if merge_hangs env command then is_hang r = true
     else returned r = true
          /\ files (final_state r)
             = del a (del v (del tmp
                 (files_after_encoder env command (add tmp (add a (add v fs)))))).
Proof.
  intros title path tmp v a fs command r R Hm Hr.
  assert (Fresh : tmp <> v /\ tmp <> a).
  { unfold merge_reached in Hr.
    destruct (yt_video_stream yt) as [[vs|]|]; try discriminate Hr.
    destruct (yt_audio_only yt) as [[aus|]|]; try discriminate Hr.
    destruct (yt_length yt); try discriminate Hr.
    destruct (env_makedirs env _); try discriminate Hr.
    destruct (download vs); try discriminate Hr.
    destruct (download aus); try discriminate Hr.
    unfold tmp, progress_file_of.
    destruct (env_tempfile env) as [t|]; try discriminate Hr.
    apply negb_true_iff, orb_false_iff in Hr as [Hr _].
    rewrite !mem_add in Hr.
    apply orb_false_iff in Hr as [Ha Hr]. apply orb_false_iff in Hr as [Hv _].
    apply String.eqb_neq in Ha, Hv. now split. }
  split; [apply Fresh|]. split; [apply Fresh|].
  subst r. rewrite (download_video_reaches_mode_branch _ _ _ _ _ R).
  unfold try_except. rewrite mode_branch_video by exact Hm.
  destruct (video_branch_at_merge yt raw_title (after_captions yt raw_title url lang st))
    as (st_m & -> & Fm & Pm & _); [exact Hr|].
  cbn [after_captions emit with_files self_path files] in Fm, Pm |- *.
  match goal with
  | |- context [merge_block env ?c ?m ?t ?vv ?aa st_m] =>
      assert (O := merge_then_cleanup c m t vv aa st_m);
      set (X := merge_block env c m t vv aa st_m) in *
  end.
  cbv zeta in O. rewrite Fm in O.
  specialize (O ltac:(rewrite !mem_add, String.eqb_refl; reflexivity)).
  specialize (O ltac:(rewrite !mem_add, String.eqb_refl, ?orb_true_r; reflexivity)).
  specialize (O ltac:(rewrite !mem_add, String.eqb_refl, ?orb_true_r; reflexivity)).
  specialize (O (proj1 Fresh) (proj2 Fresh) (video_audio_differ path raw_title)).
  fold path title tmp v a fs command in O |- *. clearbody X.
  destruct (merge_hangs env command).
  - destruct X; cbn in O; try discriminate O. reflexivity.
  - destruct O as (Rt & Fs & _).
    destruct X; cbn in Rt, Fs |- *; try discriminate Rt.
    split; [reflexivity | exact Fs].
Qed.

(** When the download of the audio stream raises, the video branch ends
    by that exception, with the video stream's file in place. *)
Lemma video_branch_audio_fails (yt : YouTubeObj) (title : string) (st : State) :
  audio_download_fails env yt (self_path st) = true ->
  exists e s,
    video_branch env yt title st = Raise e s
    /\ mem (video_filepath_of (self_path st) title) (files s) = true.
Proof.
  unfold audio_download_fails.
  destruct (yt_video_stream yt) as [[vs|]|] eqn:V; try discriminate.
  destruct (yt_audio_only yt) as [[aus|]|] eqn:A; try discriminate.
  destruct (env_makedirs env (temp_dir_of (self_path st))) as [[]|] eqn:D;
    try discriminate.
  destruct (download vs) as [[]|] eqn:Dv; try discriminate.
  destruct (download aus) as [|e] eqn:Da; try discriminate.
  intros _.
  unfold video_branch.
  unfold bind at 1. rewrite V. cbn [lift ret].
  unfold bind at 1. rewrite A. cbn [lift ret].
  unfold bind at 1. cbn [get_path].
  unfold bind at 1. unfold makedirs at 1. unfold bind at 1.
  fold (temp_dir_of (self_path st)). rewrite D. cbn [lift ret].
  unfold bind at 1. cbn [print log].
  unfold bind at 1. unfold stream_download at 1. rewrite Dv.
  unfold bind at 1. cbn [create_file set_files ret].
  unfold bind at 1. cbn [print log].
  unfold bind at 1. cbn [print log].
  unfold bind at 1. unfold stream_download at 1. rewrite Da.
  fold (video_filepath_of (self_path st) title).
  unfold bind at 1.
  destruct (download_partial aus); cbn [create_file set_files ret raise files];
    (eexists; eexists; split; [reflexivity|]); cbn [files];
    rewrite ?mem_add, String.eqb_refl, ?orb_true_r; reflexivity.
Qed.

End DownloadFacts.

(** ** What a download leaves behind *)

(** The part of C3 that holds. A video-mode download that reaches the
    merge stage and is not blocked by the encoder returns, whatever the
    encoder did, with the two stream files and the progress log removed. *)
Lemma merge_stage_cleans_up
      (env : Env) (url lang : string) (yt : YouTubeObj) (raw_title : string)
      (st : State) :
  let title := _sanitize_filename raw_title in
  let path := self_path st in
  let r := _download_video env url lang st in
  resolved env url = Some (yt, raw_title) ->
  self_mode st = "V" ->
  merge_reached env yt title path (caption_files yt lang path (files st)) (dirs st) = true ->
  encoder_blocks env (merge_command env path title (progress_file_of env)) = false ->
  returned r = true
  /\ mem (video_filepath_of path title) (files (final_state r)) = false
  /\ mem (audio_filepath_of path title) (files (final_state r)) = false
  /\ mem (progress_file_of env) (files (final_state r)) = false.
Proof.
  intros title path r R Hm Hr Hb.
  destruct (video_download_outcome env url lang yt raw_title st R Hm Hr) as (_ & _ & O).
  fold title path in O. rewrite (no_block_no_hang _ _ Hb) in O. destruct O as [Rt Fs].
  fold r in Rt, Fs. split; [exact Rt|]. rewrite Fs.
  rewrite !mem_del, !String.eqb_refl. cbn [negb andb].
  rewrite !andb_false_r. auto.
Qed.

(** C3, where the code departs from it. In a video-mode download whose
    video stream is downloaded and whose audio stream download raises,
    the operation ends (the exception is reported) and the file
    [<title>_video.mp4] is still there, inside [.temp]. *)
Theorem video_temp_file_left_behind
      (env : Env) (url lang : string) (yt : YouTubeObj) (raw_title : string)
      (st : State) :
  let title := _sanitize_filename raw_title in
  let path := self_path st in
  let r := _download_video env url lang st in
  resolved env url = Some (yt, raw_title) ->
  self_mode st = "V" ->
  audio_download_fails env yt path = true ->
  returned r = true
  /\ mem (video_filepath_of path title) (files (final_state r)) = true
  /\ inside (temp_dir_of path) (video_filepath_of path title) = true.
Proof.
  intros title path r R Hm Ha. subst title path r.
  split; [|split; [|apply temp_files_inside_temp]];
    rewrite (download_video_reaches_mode_branch _ _ _ _ _ _ R);
    unfold try_except; rewrite mode_branch_video by exact Hm;
    destruct (video_branch_audio_fails env yt (_sanitize_filename raw_title)
                (after_captions yt raw_title url lang st) Ha) as (e & s & -> & M);
    [reflexivity | exact M].
Qed.

Lemma video_temp_file_left_behind_witness :
  let r := _download_video leak_env "https://youtu.be/dQw4w9WgXcQ" "ko" (demo_state "V") in
  returned r = true
  /\ mem "/home/user/Downloads/.temp/ACDC Live_video.mp4" (files (final_state r)) = true
  /\ inside "/home/user/Downloads/.temp"
            "/home/user/Downloads/.temp/ACDC Live_video.mp4" = true.
Proof.
  exact (video_temp_file_left_behind leak_env "https://youtu.be/dQw4w9WgXcQ" "ko"
           _ _ (demo_state "V") eq_refl eq_refl eq_refl).
Defined.

(** C7. Once the video is resolved, whatever asking for the captions does
    (the language is absent, the lookup raises, the download raises), the
    caption block returns, having printed its one message, and the
    operation goes on to the mode branch from there; when the media part
    then goes well the operation returns and the output file is there,
    [<title>.mp3] in sound mode and [<title>.mp4] in video mode. *)
Theorem captions_never_abort_media
      (env : Env) (url lang : string) (yt : YouTubeObj) (raw_title : string)
      (st : State) :
  let title := _sanitize_filename raw_title in
  let path := self_path st in
  let r := _download_video env url lang st in
  resolved env url = Some (yt, raw_title) ->
  (forall t s,
     caption_block yt t lang s
     = Ret tt (emit [Print (caption_message yt lang)]
                 (with_files (caption_files yt lang (self_path s) (files s)) s)))
  /\ r = try_except
           (mode_branch env yt title)
           (fun err => print ("An error occurred during video processing: " ++ err))
           (after_captions yt raw_title url lang st)
  /\ (self_mode st = "S" -> sound_succeeds env yt title path = true ->
      returned r = true /\ mem (mp3_of path title) (files (final_state r)) = true)
  /\ (self_mode st = "V" ->
      video_succeeds env yt title path (caption_files yt lang path (files st)) (dirs st)
      = true ->
      returned r = true /\ mem (mp4_of path title) (files (final_state r)) = true).
Proof.
  intros title path r R.
  split; [intros; apply caption_block_returns|].
  split; [now apply download_video_reaches_mode_branch|]. split.
  - intros Hm Hs. subst r.
    rewrite (sound_download_success env url lang yt raw_title st R Hm Hs).
    cbn [returned final_state emit with_files files].
    rewrite mem_add, String.eqb_refl. now split.
  - intros Hm Hv. unfold video_succeeds in Hv.
    apply andb_true_iff in Hv as [Hv Hn]. apply andb_true_iff in Hv as [Hr He].
    apply negb_true_iff, String.eqb_neq in Hn.
    destruct (video_download_outcome env url lang yt raw_title st R Hm Hr)
      as (_ & _ & O).
    fold title path r in O.
    unfold merge_hangs, polling, files_after_encoder in O.
    destruct (ffmpeg env (merge_command env path title (progress_file_of env)))
      as [e| |[|p|p] err progress]; try discriminate He.
    rewrite He in O. cbn [negb andb] in O. destruct O as [Rt Fs].
    split; [exact Rt|]. rewrite Fs.
    assert (L : last (merge_command env path title (progress_file_of env)) EmptyString
                = mp4_of path title) by reflexivity.
    rewrite L, !mem_del, !mem_add, String.eqb_refl.
    assert (N1 : (mp4_of path title =? audio_filepath_of path title) = false)
      by (apply String.eqb_neq, output_not_temp_file; reflexivity).
    assert (N2 : (mp4_of path title =? video_filepath_of path title) = false)
      by (apply String.eqb_neq, output_not_temp_file; reflexivity).
    assert (N3 : (mp4_of path title =? progress_file_of env) = false)
      by (apply String.eqb_neq; congruence).
    now rewrite N1, N2, N3.
Qed.

Lemma captions_never_abort_media_witness :
  caption_message
    {| yt_title := Ok "AC/DC: Live?";
       yt_captions := fun _ => CaptionsRaise "HTTP Error 400: Bad Request";
       yt_video_stream := Ok (Some demo_stream);
       yt_audio_only := Ok (Some demo_stream);
       yt_length := Ok 212%N |} "ko"
  = "Could not download captions: HTTP Error 400: Bad Request"
  /\ (let r := _download_video caption_fail_env "https://youtu.be/x" "ko" (demo_state "S") in
      returned r = true
      /\ mem "/home/user/Downloads/ACDC Live.mp3" (files (final_state r)) = true)
  /\ (let r := _download_video caption_fail_env "https://youtu.be/x" "ko" (demo_state "V") in
      returned r = true
      /\ mem "/home/user/Downloads/ACDC Live.mp4" (files (final_state r)) = true).
Proof.
  split; [reflexivity|]. split.
  - exact (proj1 (proj2 (proj2
             (captions_never_abort_media caption_fail_env "https://youtu.be/x" "ko"
                _ _ (demo_state "S") eq_refl))) eq_refl eq_refl).
  - exact (proj2 (proj2 (proj2
             (captions_never_abort_media caption_fail_env "https://youtu.be/x" "ko"
                _ _ (demo_state "V") eq_refl))) eq_refl eq_refl).
Defined.

(** C8. A sound-mode download whose media part goes well returns; the
    encoder is run once, on the sound command, and the files it leaves
    are those there were, the caption file if the collaborator wrote one,
    and [<path>/<title>.mp3]; that file is not inside [.temp], no
    directory is made, and inside [.temp] the operation itself changes
    nothing. *)
Theorem sound_download_output
      (env : Env) (url lang : string) (yt : YouTubeObj) (raw_title : string)
      (st : State) :
  let title := _sanitize_filename raw_title in
  let path := self_path st in
  let mp3 := mp3_of path title in
  let r := _download_video env url lang st in
  resolved env url = Some (yt, raw_title) ->
  self_mode st = "S" ->
  sound_succeeds env yt title path = true ->
  returned r = true
  /\ files (final_state r) = add mp3 (caption_files yt lang path (files st))
  /\ dirs (final_state r) = dirs st
  /\ filter is_exec (new_events st r) = [Exec (sound_command mp3)]
  /\ inside (temp_dir_of path) mp3 = false
  /\ (forall p, inside (temp_dir_of path) p = true ->
                mem p (files (final_state r))
                = mem p (caption_files yt lang path (files st))).
Proof.
  intros title path mp3 r R Hm Hs.
  assert (O : inside (temp_dir_of path) mp3 = false)
    by (apply output_outside_temp; reflexivity).
  subst r. rewrite (sound_download_success env url lang yt raw_title st R Hm Hs).
  fold title path mp3.
  cbn [returned final_state emit with_files after_captions files dirs].
  split; [reflexivity|]. split; [reflexivity|]. split; [reflexivity|]. split.
  - unfold new_events.
    cbn [final_state emit with_files after_captions trace].
    rewrite <- !app_assoc, skipn_app, skipn_all, Nat.sub_diag. reflexivity.
  - split; [exact O|]. intros p Hp. rewrite mem_add.
    destruct (String.eqb_spec p mp3) as [->|]; [congruence | reflexivity].
Qed.

Lemma sound_download_output_witness :
  let r := _download_video demo_env "https://youtu.be/dQw4w9WgXcQ" "ko" (demo_state "S") in
  returned r = true
  /\ files (final_state r) = ["/home/user/Downloads/ACDC Live.mp3"]
  /\ dirs (final_state r) = ["/home/user/Downloads"]
  /\ filter is_exec (new_events (demo_state "S") r)
     = [Exec (sound_command "/home/user/Downloads/ACDC Live.mp3")]
  /\ inside "/home/user/Downloads/.temp" "/home/user/Downloads/ACDC Live.mp3" = false.
Proof.
  destruct (sound_download_output demo_env "https://youtu.be/dQw4w9WgXcQ" "ko"
              _ _ (demo_state "S") eq_refl eq_refl eq_refl)
    as (H1 & H2 & H3 & H4 & H5 & _).
  repeat split; assumption.
Defined.

Example video_download_in_demo_world :
  let r := _download_video demo_env "https://youtu.be/dQw4w9WgXcQ" "ko" (demo_state "V") in
  returned r = true
  /\ files (final_state r) = ["/home/user/Downloads/ACDC Live.mp4"]
  /\ dirs (final_state r) = ["/home/user/Downloads/.temp"; "/home/user/Downloads"].
Proof. vm_compute. repeat split. Qed.


(** * Further properties of the methods *)

(** ** No method but [_check_dependencies] ends the process *)

Create HintDb no_exit.

Section NoExit.

Lemma no_exit_ret {A} (a : A) : no_exit (ret a).
Proof. intros st. exact I. Qed.

Lemma no_exit_raise {A} (e : string) : no_exit (@raise A e).
Proof. intros st. exact I. Qed.

Lemma no_exit_hang {A} : no_exit (@hang A).
Proof. intros st. exact I. Qed.

Lemma no_exit_lift {A} (r : result A) : no_exit (lift r).
Proof. destruct r; intros st; exact I. Qed.

Lemma no_exit_log (e : Event) : no_exit (log e).
Proof. intros st. exact I. Qed.

Lemma no_exit_print (s : string) : no_exit (print s).
Proof. intros st. exact I. Qed.

Lemma no_exit_get_path : no_exit get_path.
Proof. intros st. exact I. Qed.

Lemma no_exit_get_mode : no_exit get_mode.
Proof. intros st. exact I. Qed.

Lemma no_exit_set_mode (m : string) : no_exit (set_mode m).
Proof. intros st. exact I. Qed.

Lemma no_exit_set_files (f : list string -> list string) : no_exit (set_files f).
Proof. intros st. exact I. Qed.

Lemma no_exit_create_file (p : string) : no_exit (create_file p).
Proof. intros st. exact I. Qed.

Lemma no_exit_path_exists (p : string) : no_exit (path_exists p).
Proof. intros st. exact I. Qed.

Lemma no_exit_os_remove (p : string) : no_exit (os_remove p).
Proof. intros st. unfold os_remove. destruct (mem p (files st)); exact I. Qed.

Lemma no_exit_bind {A B} (m : M A) (k : A -> M B) :
  no_exit m -> (forall a, no_exit (k a)) -> no_exit (bind m k).
Proof.
  intros Hm Hk st. unfold bind. specialize (Hm st).
  destruct (m st) as [a st'|e st'|st'|st']; try exact I; [apply Hk | exact Hm].
Qed.

Lemma no_exit_try_except {A} (body : M A) (handler : string -> M A) :
  no_exit body -> (forall e, no_exit (handler e)) -> no_exit (try_except body handler).
Proof.
  intros Hm Hk st. unfold try_except. specialize (Hm st).
  destruct (body st) as [a st'|e st'|st'|st']; try exact I; [apply Hk | exact Hm].
Qed.

Lemma no_exit_try_finally {A} (body : M A) (fin : M unit) :
  no_exit body -> no_exit fin -> no_exit (try_finally body fin).
Proof.
  intros Hm Hk st. unfold try_finally. specialize (Hm st).
  destruct (body st) as [a st'|e st'|st'|st']; cbn [final_state];
    try exact I; try contradiction;
    specialize (Hk st'); destruct (fin st') as [[] ?|? ?|?|?]; try exact I; exact Hk.
Qed.

End NoExit.

#[local] Hint Resolve no_exit_ret no_exit_raise no_exit_hang no_exit_lift no_exit_log
  no_exit_print no_exit_get_path no_exit_get_mode no_exit_set_mode no_exit_set_files
  no_exit_create_file no_exit_path_exists no_exit_os_remove : no_exit.

(** Breaks a goal [no_exit m] down along the shape of [m]. *)
Ltac no_exit_tac :=
  repeat first
    [ solve [auto with no_exit]
    | apply no_exit_bind; [|intros ?]
    | apply no_exit_try_except; [|intros ?]
    | apply no_exit_try_finally
    | match goal with
      | |- no_exit (match ?x with _ => _ end) => destruct x
      | |- no_exit (let _ := _ in _) => cbv zeta
      end ].

Section Containment.

Variable env : Env.

Lemma no_exit_makedirs (d : string) : no_exit (makedirs env d).
Proof.
  unfold makedirs. apply no_exit_bind; [apply no_exit_lift|]. intros _ st. exact I.
Qed.

Hint Resolve no_exit_makedirs : no_exit.

Lemma no_exit_stream_download (s : Stream) (d f : string) :
  no_exit (stream_download s d f).
Proof. unfold stream_download. no_exit_tac. Qed.

Lemma no_exit_NamedTemporaryFile : no_exit (NamedTemporaryFile env).
Proof. unfold NamedTemporaryFile. no_exit_tac. Qed.

Lemma no_exit_run_merge (command : list string) : no_exit (run_merge env command).
Proof. unfold run_merge. no_exit_tac. Qed.

Lemma no_exit_run_convert (command : list string) : no_exit (run_convert env command).
Proof. unfold run_convert. no_exit_tac. Qed.

Lemma no_exit_cleanup (p v a : string) : no_exit (cleanup p v a).
Proof. unfold cleanup. no_exit_tac. Qed.

Lemma no_exit_caption_block (yt : YouTubeObj) (title lang : string) :
  no_exit (caption_block yt title lang).
Proof. unfold caption_block. no_exit_tac. Qed.

Hint Resolve no_exit_stream_download no_exit_NamedTemporaryFile no_exit_run_merge
  no_exit_run_convert no_exit_cleanup no_exit_caption_block : no_exit.

Lemma no_exit_video_branch (yt : YouTubeObj) (title : string) :
  no_exit (video_branch env yt title).
Proof. unfold video_branch. no_exit_tac. Qed.

Lemma no_exit_sound_branch (yt : YouTubeObj) (title : string) :
  no_exit (sound_branch env yt title).
Proof. unfold sound_branch. no_exit_tac. Qed.

Hint Resolve no_exit_video_branch no_exit_sound_branch : no_exit.

Lemma no_exit_mode_branch (yt : YouTubeObj) (title : string) :
  no_exit (mode_branch env yt title).
Proof. unfold mode_branch. no_exit_tac. Qed.

Hint Resolve no_exit_mode_branch : no_exit.

(** A [try] whose handler only prints lets nothing but a block through. *)
Lemma contained_try_except_print {A} (body : M A) (report : string -> M A) :
  no_exit body -> (forall e, contained (report e)) ->
  contained (try_except body report).
Proof.
  intros Hb Hr st. unfold try_except. specialize (Hb st).
  destruct (body st) as [a st'|e st'|st'|st']; try exact I; [apply Hr | exact Hb].
Qed.

Lemma contained_print (s : string) : contained (print s).
Proof. intros st. exact I. Qed.

Lemma contained_bind {A B} (m : M A) (k : A -> M B) :
  contained m -> (forall a, contained (k a)) -> contained (bind m k).
Proof.
  intros Hm Hk st. unfold bind. specialize (Hm st).
  destruct (m st) as [a st'|e st'|st'|st']; try exact I; try contradiction. apply Hk.
Qed.

Lemma contained_download_video (url lang : string) :
  contained (_download_video env url lang).
Proof.
  unfold _download_video. apply contained_bind; [intros st; exact I | intros _].
  apply contained_try_except_print; [no_exit_tac | intros e; apply contained_print].
Qed.

Lemma no_exit_download_video (url lang : string) : no_exit (_download_video env url lang).
Proof.
  intros st. assert (C := contained_download_video url lang st).
  destruct (_download_video env url lang st); try exact I. exact C.
Qed.

Lemma no_exit_playlist_loop (video_urls : list string) :
  no_exit (playlist_loop env video_urls).
Proof.
  induction video_urls as [|u rest IH]; cbn [playlist_loop]; [apply no_exit_ret|].
  apply no_exit_bind; [apply no_exit_download_video | intros _].
  apply no_exit_bind; [apply no_exit_log | intros _; exact IH].
Qed.

Lemma contained_download_playlist (url : string) :
  contained (_download_playlist env url).
Proof.
  unfold _download_playlist. apply contained_bind; [intros st; exact I | intros _].
  apply contained_try_except_print; [|intros e; apply contained_print].
  assert (L := no_exit_playlist_loop). no_exit_tac.
Qed.

End Containment.

(** X1. No exception escapes [_download_video] and it never ends the
    process: whatever the URL, the mode and the world, the call returns
    normally or blocks for ever; and the same holds of
    [_download_playlist]. *)
Theorem download_operations_contain_errors (env : Env) (url lang : string) (st : State) :
  match _download_video env url lang st with
  | Ret _ _ | Hang _ => True
  | Raise _ _ | SysExit _ => False
  end
  /\ match _download_playlist env url st with
     | Ret _ _ | Hang _ => True
     | Raise _ _ | SysExit _ => False
     end.
Proof.
  split; [apply contained_download_video | apply contained_download_playlist].
Qed.

(** ** What one download touches *)

Lemma new_events_app {A} (st : State) (r : Res A) (evs : list Event) :
  trace (final_state r) = (trace st ++ evs)%list -> new_events st r = evs.
Proof.
  intros E. unfold new_events. rewrite E.
  now rewrite skipn_app, skipn_all, Nat.sub_diag.
Qed.

Lemma download_video_events (env : Env) (url lang : string) (st : State) :
  self_mode (final_state (_download_video env url lang st)) = self_mode st
  /\ self_path (final_state (_download_video env url lang st)) = self_path st
  /\ exists evs,
       trace (final_state (_download_video env url lang st))
       = (trace st ++ Call_download_video url lang :: evs)%list
       /\ forallb is_download_event evs = true.
Proof.
  assert (K : keeps true is_download_event (download_video_body env url lang)).
  { apply keeps_download_video_body; try reflexivity. now intros []. }
  destruct (K (emit [Call_download_video url lang] st)) as [F (evs & T & O)].
  destruct (F eq_refl) as [Fm Fp].
  change (download_video_body env url lang (emit [Call_download_video url lang] st))
    with (_download_video env url lang st) in Fm, Fp, T.
  split; [exact Fm|]. split; [exact Fp|]. exists evs. split; [|exact O].
  rewrite T. cbn [emit trace]. now rewrite <- app_assoc.
Qed.

(** X2. [_download_video] leaves [self.mode] and [self.path] as they are,
    and all that can be observed of it, after its entry, is what it
    prints, the encoder it runs and the marks of the thread that polls
    the progress log of the merge (its pauses of 0.1 s on an empty read,
    its death, its being left behind): the operation reads no input,
    makes no pause of its own, and enters no download operation again. *)
Theorem download_video_frame (env : Env) (url lang : string) (st : State) :
  self_mode (final_state (_download_video env url lang st)) = self_mode st
  /\ self_path (final_state (_download_video env url lang st)) = self_path st
  /\ exists evs,
       new_events st (_download_video env url lang st)
       = Call_download_video url lang :: evs
       /\ forallb is_download_event evs = true.
Proof.
  destruct (download_video_events env url lang st) as (Fm & Fp & evs & T & O).
  split; [exact Fm|]. split; [exact Fp|]. exists evs.
  split; [now apply new_events_app | exact O].
Qed.

(** X3. When the video cannot be resolved ([YouTube(url)] or [yt.title]
    raises), [_download_video] prints the error and returns; nothing
    else happens: no file or directory is written, the encoder is not
    run, the captions are not asked for. *)
Theorem unresolved_video_is_reported
    (env : Env) (url lang e : string) (st : State) :
  resolution_error env url = Some e ->
  _download_video env url lang st
  = Ret tt (emit [Print ("An error occurred during video processing: " ++ e)]
              (emit [Call_download_video url lang] st)).
Proof.
  unfold resolution_error, _download_video. intros H.
  unfold bind at 1. cbn [log]. unfold try_except. unfold bind at 1.
  destruct (YouTube env url) as [yt|e'] eqn:Y; cbn [lift ret raise].
  - unfold bind at 1. destruct (yt_title yt) as [t|e'] eqn:T; [discriminate H|].
    inversion H; subst e'. reflexivity.
  - inversion H; subst e'. reflexivity.
Qed.

Lemma unresolved_video_is_reported_witness :
  _download_video offline_env "https://youtu.be/dQw4w9WgXcQ" "ko" (demo_state "V")
  = Ret tt
      (emit [Print "An error occurred during video processing: <urlopen error [Errno -2] Name or service not known>"]
         (emit [Call_download_video "https://youtu.be/dQw4w9WgXcQ" "ko"] (demo_state "V"))).
Proof.
  exact (unresolved_video_is_reported offline_env "https://youtu.be/dQw4w9WgXcQ" "ko"
           _ (demo_state "V") eq_refl).
Defined.

(** X4. In video mode, when the video-only stream or the audio-only
    stream is missing, the operation prints which one and returns from
    the state the caption block left: nothing is downloaded, [.temp] is
    not created, the encoder is not run. *)
Theorem missing_stream_downloads_nothing
    (env : Env) (url lang : string) (yt : YouTubeObj) (raw_title msg : string)
    (st : State) :
  resolved env url = Some (yt, raw_title) ->
  self_mode st = "V" ->
  stream_missing yt = Some msg ->
  _download_video env url lang st
  = Ret tt (emit [Print msg] (after_captions yt raw_title url lang st)).
Proof.
  intros R Hm S. rewrite (download_video_reaches_mode_branch _ _ _ _ _ _ R).
  unfold try_except. rewrite mode_branch_video by exact Hm.
  unfold stream_missing in S. unfold video_branch.
  unfold bind at 1.
  destruct (yt_video_stream yt) as [[vs|]|]; try discriminate S; cbn [lift ret];
    unfold bind at 1;
    destruct (yt_audio_only yt) as [[aus|]|]; try discriminate S; cbn [lift ret];
    inversion S; reflexivity.
Qed.

Lemma missing_stream_downloads_nothing_witness :
  let r := _download_video audio_only_env "https://youtu.be/x" "ko" (demo_state "V") in
  files (final_state r) = [] /\ dirs (final_state r) = ["/home/user/Downloads"]
  /\ filter is_exec (trace (final_state r)) = [].
Proof.
  rewrite (missing_stream_downloads_nothing audio_only_env "https://youtu.be/x" "ko"
             _ _ "No video stream found." (demo_state "V") eq_refl eq_refl eq_refl).
  repeat split.
Defined.

(** X5. In video mode, when the merge stage is reached and the encoder
    exits without a line of its progress log that ends the polling
    routine (none holds [progress=end], none reports a time out of the
    range of a float; so when the encoder fails at once), the operation
    never returns: the polling thread is joined and never ends.  When
    instead the first line that ends the routine reports a time out of
    range, the thread dies of the [OverflowError], the join returns and
    so does the operation. *)
Theorem merge_blocks_without_progress_end
    (env : Env) (url lang : string) (yt : YouTubeObj) (raw_title : string)
    (st : State) :
  let title := _sanitize_filename raw_title in
  let path := self_path st in
  let command := merge_command env path title (progress_file_of env) in
  resolved env url = Some (yt, raw_title) ->
  self_mode st = "V" ->
  merge_reached env yt title path (caption_files yt lang path (files st)) (dirs st) = true ->
  (log_never_ends env command = true ->
   is_hang (_download_video env url lang st) = true)
  /\ (log_kills_thread env command = true ->
      returned (_download_video env url lang st) = true).
Proof.
  intros title path command R Hm Hr.
  destruct (video_download_outcome env url lang yt raw_title st R Hm Hr) as (_ & _ & O).
  fold title path command in O. split.
  - intros Hl.
    assert (B : merge_hangs env command = true).
    { unfold log_never_ends in Hl. unfold merge_hangs, polling.
      destruct (ffmpeg env command) as [e| |rc err progress];
        try discriminate Hl; [].
      apply negb_true_iff in Hl.
      destruct (progress_end tqdm progress) as (F & D & _).
      rewrite (existsb_find_none _ _ Hl) in F, D. now rewrite F, D. }
    now rewrite B in O.
  - intros Hl.
    assert (B : merge_hangs env command = false).
    { unfold log_kills_thread in Hl. unfold merge_hangs, polling.
      destruct (ffmpeg env command) as [e| |rc err progress];
        try discriminate Hl; [].
      destruct (progress_end tqdm progress) as (_ & D & _).
      destruct (find stops progress) as [line|]; [|discriminate Hl].
      apply negb_true_iff in Hl. rewrite Hl in D. rewrite D. apply andb_false_r. }
    rewrite B in O. apply O.
Qed.

Lemma merge_blocks_without_progress_end_witness :
  is_hang (_download_video failing_encoder_env "https://youtu.be/x" "ko" (demo_state "V"))
  = true.
Proof.
  exact (proj1 (merge_blocks_without_progress_end failing_encoder_env
                  "https://youtu.be/x" "ko" _ _ (demo_state "V")
                  eq_refl eq_refl eq_refl) eq_refl).
Defined.

Example oversize_time_ends_the_thread :
  let r := _download_video overflow_env "https://youtu.be/x" "ko" (demo_state "V") in
  returned r = true
  /\ filter is_thread (trace (final_state r))
     = [Thread_died "integer division result too large for a float"]
  /\ last (trace (final_state r)) (Print EmptyString)
     = Print "Temporary files cleaned up.".
Proof. vm_compute. repeat split. Qed.



(** ** [_download_playlist] on a playlist that resolves *)

Section PlaylistFacts.

Variable env : Env.

Lemma quiet_events (evs : list Event) :
  forallb is_download_event evs = true ->
  filter is_video_call evs = [] /\ filter is_sleep evs = [].
Proof.
  induction evs as [|e evs IH]; cbn [forallb filter]; intros H; [now split|].
  apply andb_true_iff in H as [He H]. destruct (IH H) as [-> ->].
  destruct e; try discriminate He; now split.
Qed.

Lemma quiet_steps (evs : list Event) :
  forallb is_download_event evs = true -> filter is_step evs = [].
Proof.
  induction evs as [|e evs IH]; cbn [forallb filter]; intros H; [reflexivity|].
  apply andb_true_iff in H as [He H]. rewrite (IH H).
  destruct e; try discriminate He; reflexivity.
Qed.

Lemma contained_playlist_loop (video_urls : list string) :
  contained (playlist_loop env video_urls).
Proof.
  induction video_urls as [|u rest IH]; cbn [playlist_loop]; [intros st; exact I|].
  apply contained_bind; [apply contained_download_video | intros _].
  apply contained_bind; [intros st; exact I | intros _; exact IH].
Qed.

Lemma playlist_loop_cons (u : string) (rest : list string) (st : State) :
  playlist_loop env (u :: rest) st
  = match _download_video env u "ko" st with
    | Ret _ s => playlist_loop env rest (emit [Sleep 1] s)
    | Raise e s => Raise e s
    | SysExit s => SysExit s
    | Hang s => Hang s
    end.
Proof.
  cbn [playlist_loop]. unfold bind at 1.
  destruct (_download_video env u "ko" st) as [[] ?|? ?|?|?]; reflexivity.
Qed.

(** The loop over the videos: one call per video, in order, each
    followed by a pause, up to the video on which a download blocks. *)
Lemma playlist_loop_events (video_urls : list string) (st : State) :
  exists k evs,
    trace (final_state (playlist_loop env video_urls st)) = (trace st ++ evs)%list
    /\ filter is_video_call evs = video_calls (firstn k video_urls)
    /\ (returned (playlist_loop env video_urls st) = true ->
        filter is_video_call evs = video_calls video_urls
        /\ filter is_sleep evs = repeat (Sleep 1) (List.length video_urls)).
Proof.
  revert st. induction video_urls as [|u rest IH]; intros st.
  - exists 0, []. cbn. rewrite app_nil_r. repeat split.
  - rewrite playlist_loop_cons.
    destruct (download_video_events env u "ko" st) as (_ & _ & e1 & T1 & Q1).
    destruct (quiet_events e1 Q1) as [V1 S1].
    assert (C := contained_download_video env u "ko" st).
    destruct (_download_video env u "ko" st) as [[] s1|? ?|?|s1]; try contradiction.
    + cbn [final_state] in T1.
      destruct (IH (emit [Sleep 1] s1)) as (k & evs & T & Vk & Rk).
      exists (S k), (Call_download_video u "ko" :: e1 ++ Sleep 1 :: evs)%list.
      split; [|split].
      * rewrite T. cbn [emit trace]. rewrite T1, <- !app_assoc. reflexivity.
      * cbn [filter is_video_call firstn video_calls map].
        rewrite filter_app, V1. cbn [filter is_video_call app].
        now rewrite Vk.
      * intros Rt. destruct (Rk Rt) as [Va Sa].
        cbn [filter is_video_call is_sleep video_calls map List.length repeat].
        rewrite !filter_app, V1, S1. cbn [filter is_video_call is_sleep app].
        now rewrite Va, Sa.
    + exists 1, (Call_download_video u "ko" :: e1)%list. cbn [final_state] in T1 |- *.
      split; [exact T1|]. split; [|discriminate].
      cbn [filter is_video_call firstn video_calls map]. now rewrite V1.
Qed.

(** The same loop, with the calls and the pauses together: a download,
    its pause, the next download, and so on; a loop that blocks does so
    inside a download, before the pause that would follow it. *)
Lemma playlist_loop_steps (video_urls : list string) (st : State) :
  exists evs,
    trace (final_state (playlist_loop env video_urls st)) = (trace st ++ evs)%list
    /\ (returned (playlist_loop env video_urls st) = true ->
        filter is_step evs = playlist_steps video_urls)
    /\ (is_hang (playlist_loop env video_urls st) = true ->
        exists pre u post,
          video_urls = (pre ++ u :: post)%list
          /\ filter is_step evs
             = (playlist_steps pre ++ [Call_download_video u "ko"])%list).
Proof.
  revert st. induction video_urls as [|u rest IH]; intros st.
  - exists []. cbn. rewrite app_nil_r. repeat split. discriminate.
  - rewrite playlist_loop_cons.
    destruct (download_video_events env u "ko" st) as (_ & _ & e1 & T1 & Q1).
    assert (S1 := quiet_steps e1 Q1).
    assert (C := contained_download_video env u "ko" st).
    destruct (_download_video env u "ko" st) as [[] s1|? ?|?|s1]; try contradiction.
    + cbn [final_state] in T1.
      destruct (IH (emit [Sleep 1] s1)) as (evs & T & Rk & Hk).
      exists (Call_download_video u "ko" :: e1 ++ Sleep 1 :: evs)%list.
      split; [|split].
      * rewrite T. cbn [emit trace]. rewrite T1, <- !app_assoc. reflexivity.
      * intros Rt. cbn [filter is_step is_video_call is_sleep orb].
        rewrite filter_app, S1. cbn [filter is_step is_video_call is_sleep orb app].
        now rewrite (Rk Rt).
      * intros Hg. destruct (Hk Hg) as (pre & v & post & -> & F).
        exists (u :: pre), v, post. split; [reflexivity|].
        cbn [filter is_step is_video_call is_sleep orb].
        rewrite filter_app, S1. cbn [filter is_step is_video_call is_sleep orb app].
        now rewrite F.
    + exists (Call_download_video u "ko" :: e1)%list. cbn [final_state] in T1 |- *.
      split; [exact T1|]. split; [discriminate|]. intros _.
      exists [], u, rest. split; [reflexivity|].
      cbn [filter is_step is_video_call is_sleep orb]. now rewrite S1.
Qed.

(** What [_download_playlist] comes to when the playlist resolves. *)
Lemma download_playlist_resolved
      (url playlist_id title : string) (video_urls : list string) (st : State) :
  playlist_resolved env url = Some (playlist_id, title, video_urls) ->
  exists st0,
    trace st0 = (trace st ++
                 [Call_download_playlist url;
                  Print ("playlist_id: " ++ playlist_id);
                  Print (nl ++ "Found playlist: " ++ title);
                  Print ("Downloading "
                         ++ PyStr.str_of_N (N.of_nat (List.length video_urls))
                         ++ " videos...")])%list
    /\ _download_playlist env url st
       = match playlist_loop env video_urls st0 with
         | Ret _ s => Ret tt (emit [Print (nl ++ "Playlist download finished.")] s)
         | Raise e s => Ret tt (emit [Print ("Error processing playlist: " ++ e)] s)
         | SysExit s => SysExit s
         | Hang s => Hang s
         end.
Proof.
  unfold playlist_resolved. intros H.
  destruct (Re.search_list url) as [g|] eqn:S; [|discriminate H].
  destruct (Playlist env _) as [pl|] eqn:P; [|discriminate H].
  destruct (pl_title pl) as [t|] eqn:T; [|discriminate H].
  destruct (pl_video_urls pl) as [us|] eqn:U; [|discriminate H].
  inversion H; subst g t us. clear H.
  pose (st0 := emit [Print ("Downloading "
                            ++ PyStr.str_of_N (N.of_nat (List.length video_urls))
                            ++ " videos...")]
                (emit [Print (nl ++ "Found playlist: " ++ title)]
                   (emit [Print ("playlist_id: " ++ playlist_id)]
                      (emit [Call_download_playlist url] st)))).
  exists st0. split.
  - unfold st0. cbn [emit trace]. now rewrite <- !app_assoc.
  - unfold _download_playlist, try_except, bind. cbn [log print].
    rewrite S. cbn [ret]. rewrite P. cbn [lift ret]. rewrite T. cbn [lift ret].
    rewrite U. cbn [lift ret].
    match goal with
    | |- context [playlist_loop env video_urls ?s] =>
        change s with st0
    end.
    destruct (playlist_loop env video_urls st0) as [[] ?|? ?|?|?]; reflexivity.
Qed.

End PlaylistFacts.

(** X7. When the playlist resolves, [_download_playlist] returns or
    blocks.  Of the entries into [_download_video] and the pauses of the
    loop, what it does is, in this order: the download of the first URL,
    a pause of one second, the download of the second URL, a pause of
    one second, and so on, with the default caption language; when it
    returns it has gone through every URL this way, whatever happened to
    each download, and when it blocks it does so inside the download of
    one of the URLs, every URL before that one downloaded and paused
    after, and none after it touched.  (The pauses of 0.1 s of the
    thread that polls the progress log of a merge are not pauses of the
    loop.) *)
Theorem playlist_downloads_each_video_in_order
    (env : Env) (url playlist_id title : string) (video_urls : list string)
    (st : State) :
  let r := _download_playlist env url st in
  playlist_resolved env url = Some (playlist_id, title, video_urls) ->
  (returned r = true \/ is_hang r = true)
  /\ (exists k,
        filter is_video_call (new_events st r) = video_calls (firstn k video_urls))
  /\ (returned r = true ->
      filter is_video_call (new_events st r) = video_calls video_urls
      /\ filter is_sleep (new_events st r)
         = repeat (Sleep 1) (List.length video_urls)
      /\ filter is_step (new_events st r) = playlist_steps video_urls)
  /\ (is_hang r = true ->
      exists pre u post,
        video_urls = (pre ++ u :: post)%list
        /\ filter is_step (new_events st r)
           = (playlist_steps pre ++ [Call_download_video u "ko"])%list).
Proof.
  intros r H. subst r.
  destruct (download_playlist_resolved env url playlist_id title video_urls st H)
    as (st0 & T0 & ->).
  destruct (playlist_loop_events env video_urls st0) as (k & evs & T & Vk & Rk).
  destruct (playlist_loop_steps env video_urls st0) as (evs' & T' & Rs & Hs).
  assert (E : evs' = evs) by (rewrite T in T'; now apply app_inv_head in T').
  subst evs'. clear T'.
  assert (C := contained_playlist_loop env video_urls st0).
  destruct (playlist_loop env video_urls st0) as [[] s|? ?|?|s]; try contradiction;
    cbn [final_state] in T; cbn [returned is_hang] in *.
  - split; [now left|].
    assert (N : new_events st
                  (Ret tt (emit [Print (nl ++ "Playlist download finished.")] s))
                = ([Call_download_playlist url;
                    Print ("playlist_id: " ++ playlist_id);
                    Print (nl ++ "Found playlist: " ++ title);
                    Print ("Downloading "
                           ++ PyStr.str_of_N (N.of_nat (List.length video_urls))
                           ++ " videos...")]
                   ++ evs ++ [Print (nl ++ "Playlist download finished.")])%list).
    { apply new_events_app. cbn [final_state emit trace].
      rewrite T, T0, <- !app_assoc. reflexivity. }
    rewrite N, !filter_app.
    cbn [filter is_step is_video_call is_sleep orb app].
    rewrite !app_nil_r.
    split; [exists k; exact Vk|]. split; [|discriminate].
    intros _. destruct (Rk eq_refl) as [Va Sa].
    split; [exact Va|]. split; [exact Sa | now apply Rs].
  - split; [now right|].
    assert (N : new_events st (Hang (A := unit) s)
                = ([Call_download_playlist url;
                    Print ("playlist_id: " ++ playlist_id);
                    Print (nl ++ "Found playlist: " ++ title);
                    Print ("Downloading "
                           ++ PyStr.str_of_N (N.of_nat (List.length video_urls))
                           ++ " videos...")]
                   ++ evs)%list).
    { apply new_events_app. cbn [final_state].
      rewrite T, T0, <- !app_assoc. reflexivity. }
    rewrite N, !filter_app.
    cbn [filter is_step is_video_call is_sleep orb app].
    split; [exists k; exact Vk|]. split; [discriminate|].
    intros _. now apply Hs.
Qed.

Lemma playlist_downloads_each_video_in_order_witness :
  let r := _download_playlist playlist_env
             "https://www.youtube.com/watch?v=a&list=PLx_9-Z&index=1" (demo_state "S") in
  filter is_step (new_events (demo_state "S") r)
  = [Call_download_video "https://youtu.be/a" "ko"; Sleep 1;
     Call_download_video "https://youtu.be/b" "ko"; Sleep 1;
     Call_download_video "https://youtu.be/c" "ko"; Sleep 1].
Proof.
  exact (proj2 (proj2 (proj1 (proj2 (proj2
           (playlist_downloads_each_video_in_order playlist_env
              "https://www.youtube.com/watch?v=a&list=PLx_9-Z&index=1"
              _ _ _ (demo_state "S") eq_refl))) eq_refl))).
Defined.

(** ** The playlist identifier *)

Lemma take_while_split (p : ascii -> bool) (s : string) :
  exists post,
    s = PyStr.take_while p s ++ post
    /\ match post with String c _ => p c = false | EmptyString => True end.
Proof.
  induction s as [|c s (post & E & H)]; [exists EmptyString; now split|].
  cbn [PyStr.take_while]. destruct (p c) eqn:Pc.
  - exists post. cbn [append]. split; [now rewrite <- E | exact H].
  - exists (String c s). now split.
Qed.

Lemma take_while_all (p : ascii -> bool) (s : string) :
  forallb p (list_ascii_of_string (PyStr.take_while p s)) = true.
Proof.
  induction s as [|c s IH]; [reflexivity|]. cbn [PyStr.take_while].
  destruct (p c) eqn:Pc; [|reflexivity]. cbn. now rewrite Pc, IH.
Qed.

Lemma match_list_here_spec (s g : string) :
  Re.match_list_here s = Some g ->
  g <> EmptyString
  /\ forallb Re.id_char (list_ascii_of_string g) = true
  /\ exists post,
       s = "list=" ++ g ++ post
       /\ match post with String c _ => Re.id_char c = false | EmptyString => True end.
Proof.
  unfold Re.match_list_here. destruct (prefix "list=" s) eqn:P; [|discriminate].
  destruct (prefix_split _ _ P) as [rest ->].
  change (PyStr.drop 5 ("list=" ++ rest)) with rest.
  assert (A := take_while_all Re.id_char rest).
  destruct (take_while_split Re.id_char rest) as (post & E & H).
  destruct (PyStr.take_while Re.id_char rest) as [|c t] eqn:W; [discriminate|].
  intros G. inversion G; subst g. split; [discriminate|]. split; [exact A|].
  exists post. split; [now rewrite <- E | exact H].
Qed.

(** X8. The playlist identifier that [_download_playlist] takes from a
    URL is not empty, is made of letters, digits, [_] and [-] only, and
    stands in the URL right after a [list=], running up to the end of the
    URL or to the first character of another kind: what follows it (as
    [&index=2]) is left out of the playlist URL that is resolved. *)
Theorem playlist_id_extracted (url playlist_id : string) :
  Re.search_list url = Some playlist_id ->
  playlist_id <> EmptyString
  /\ forallb Re.id_char (list_ascii_of_string playlist_id) = true
  /\ exists pre post,
       url = pre ++ "list=" ++ playlist_id ++ post
       /\ match post with String c _ => Re.id_char c = false | EmptyString => True end.
Proof.
  induction url as [|c url IH]; cbn [Re.search_list].
  - destruct (Re.match_list_here EmptyString) as [g|] eqn:M; [|discriminate].
    intros G. inversion G; subst g.
    destruct (match_list_here_spec _ _ M) as (N & A & post & E & H).
    split; [exact N|]. split; [exact A|]. exists EmptyString, post. now split.
  - destruct (Re.match_list_here (String c url)) as [g|] eqn:M.
    + intros G. inversion G; subst g.
      destruct (match_list_here_spec _ _ M) as (N & A & post & E & H).
      split; [exact N|]. split; [exact A|]. exists EmptyString, post. now split.
    + intros G. destruct (IH G) as (N & A & pre & post & E & H).
      split; [exact N|]. split; [exact A|].
      exists (String c pre), post. split; [|exact H].
      change (String c url = String c (pre ++ "list=" ++ playlist_id ++ post)).
      now f_equal.
Qed.

Lemma playlist_id_extracted_witness :
  exists pre post,
    "https://www.youtube.com/watch?v=abc&list=PL_x-9&index=2"
    = pre ++ "list=" ++ "PL_x-9" ++ post
    /\ match post with String c _ => Re.id_char c = false | EmptyString => True end.
Proof.
  exact (proj2 (proj2
           (playlist_id_extracted
              "https://www.youtube.com/watch?v=abc&list=PL_x-9&index=2" "PL_x-9"
              eq_refl))).
Defined.

(** ** White space around the input *)

Section StripFacts.

Lemma lstrip_space_app (a s : string) :
  all_space a = true -> PyStr.lstrip (a ++ s) = PyStr.lstrip s.
Proof.
  unfold all_space. induction a as [|c a IH]; cbn; intros H; [reflexivity|].
  apply andb_true_iff in H as [Hc H]. rewrite Hc. exact (IH H).
Qed.

Lemma lstrip_all_space (a : string) : all_space a = true -> PyStr.lstrip a = EmptyString.
Proof.
  intros H. rewrite <- (append_nil_r a). now rewrite lstrip_space_app.
Qed.

Lemma rstrip_app_space (s b : string) :
  all_space b = true -> PyStr.rstrip (s ++ b) = PyStr.rstrip s.
Proof.
  intros Hb. induction s as [|c s IH].
  - cbn [append]. unfold all_space in Hb. clear -Hb.
    induction b as [|c b IH]; [reflexivity|].
    cbn in Hb. apply andb_true_iff in Hb as [Hc Hb].
    cbn [PyStr.rstrip]. rewrite (IH Hb), Hc. reflexivity.
  - cbn [append PyStr.rstrip]. now rewrite IH.
Qed.

Lemma strip_lstrip_app_space (s b : string) :
  all_space b = true -> PyStr.rstrip (PyStr.lstrip (s ++ b)) = PyStr.rstrip (PyStr.lstrip s).
Proof.
  intros Hb. induction s as [|c s IH].
  - cbn [append]. now rewrite (lstrip_all_space b Hb).
  - cbn [append PyStr.lstrip]. destruct (PyStr.isspace c); [exact IH|].
    change (String c (s ++ b)) with (String c s ++ b). now apply rstrip_app_space.
Qed.

Lemma strip_padding (a s b : string) :
  all_space a = true -> all_space b = true ->
  PyStr.strip (a ++ s ++ b) = PyStr.strip s.
Proof.
  intros Ha Hb. unfold PyStr.strip.
  now rewrite lstrip_space_app, strip_lstrip_app_space.
Qed.

Lemma strip_all_space (a : string) : all_space a = true -> PyStr.strip a = EmptyString.
Proof. intros H. unfold PyStr.strip. now rewrite lstrip_all_space. Qed.

End StripFacts.

(** X9. White space around an input line does not count: the turn of
    the main loop on a line with any white space before and after it is
    the turn on the line itself, in every state and world. *)
Theorem padding_is_ignored (env : Env) (a line b : string) (st : State) :
  all_space a = true -> all_space b = true ->
  loop_body env (a ++ line ++ b) st = loop_body env line st.
Proof.
  intros Ha Hb. unfold loop_body. now rewrite strip_padding.
Qed.

Lemma padding_is_ignored_witness :
  loop_body demo_env ("  " ++ "/video" ++ String (ascii_of_N 9) " ") (demo_state "S")
  = loop_body demo_env "/video" (demo_state "S").
Proof.
  exact (padding_is_ignored demo_env "  " "/video" (String (ascii_of_N 9) " ")
           (demo_state "S") eq_refl eq_refl).
Defined.

(** X10. A line made of white space only (the empty line included) is
    skipped: the turn of the loop goes round again with the state as it
    was, nothing printed, nothing downloaded. *)
Theorem blank_line_is_skipped (env : Env) (line : string) (st : State) :
  all_space line = true -> loop_body env line st = Ret Continue st.
Proof.
  intros H. apply loop_body_blank.
  - unfold is_command, command_of. now rewrite (strip_all_space _ H).
  - now apply strip_all_space.
Qed.

Lemma blank_line_is_skipped_witness :
  loop_body demo_env (String (ascii_of_N 9) "   ") (demo_state "V")
  = Ret Continue (demo_state "V").
Proof.
  exact (blank_line_is_skipped demo_env (String (ascii_of_N 9) "   ") (demo_state "V")
           eq_refl).
Defined.

(** ** How the main loop ends *)

Section LoopEnd.

Variable env : Env.

Lemma exit_line_is_command (line : string) :
  is_exit_line line = true -> is_command line = true.
Proof. unfold is_exit_line, is_command. now intros ->. Qed.

Lemma not_command_not_exit (line : string) :
  is_command line = false -> is_exit_line line = false.
Proof.
  unfold is_exit_line, is_command. intros H.
  apply orb_false_iff in H as [H _]. now apply orb_false_iff in H as [H _].
Qed.

(** A turn of the loop breaks out exactly on an exit line, and otherwise
    goes round again or blocks in the download. *)
Lemma loop_body_outcome (line : string) (st : State) :
  match loop_body env line st with
  | Ret Break _ => is_exit_line line = true
  | Ret Continue _ | Hang _ => is_exit_line line = false
  | Raise _ _ | SysExit _ => False
  end.
Proof.
  destruct (is_command line) eqn:C.
  - rewrite (loop_body_command env _ _ C). fold (is_exit_line line).
    now destruct (is_exit_line line).
  - assert (N := not_command_not_exit _ C).
    destruct (String.eqb_spec (PyStr.strip line) EmptyString) as [E|E].
    + now rewrite (loop_body_blank env _ _ C E).
    + apply String.eqb_neq in E. rewrite (loop_body_url env _ _ C E).
      unfold bind at 1.
      assert (D := contained_download_video env (PyStr.strip line) "ko" st).
      destruct (_download_video env (PyStr.strip line) "ko" st) as [[] s|? ?|?|s];
        try contradiction; exact N.
Qed.

(** X11. The main loop never ends the process by itself and lets no
    exception of a download escape: it returns only when one of the
    lines is an exit command, it raises only the end-of-input error of
    [input] and only when no line was an exit command, and otherwise it
    is blocked in a download. *)
Theorem main_loop_ends_on_exit_only (stdin : list string) (st : State) :
  match main_loop env stdin st with
  | Ret _ _ => existsb is_exit_line stdin = true
  | Raise e _ => e = "EOF when reading a line" /\ existsb is_exit_line stdin = false
  | SysExit _ => False
  | Hang _ => True
  end.
Proof.
  revert st. induction stdin as [|line rest IH]; intros st; [now split|].
  rewrite main_loop_cons. cbn [existsb].
  assert (O := loop_body_outcome line
                 (emit [Prompt (nl ++ "Enter YouTube URL or command: ")] st)).
  destruct (loop_body env line _) as [[] s|? ?|?|s]; try contradiction; try exact I.
  - rewrite O. exact (IH s).
  - now rewrite O.
Qed.

(** X12. The lines that follow an exit command are never read: the main
    loop on the lines up to and including an exit command and on the
    same lines followed by anything else are the same run. *)
Theorem lines_after_exit_are_not_read
      (pre : list string) (x : string) (rest : list string) (st : State) :
  is_exit_line x = true ->
  main_loop env (pre ++ x :: rest) st = main_loop env (pre ++ [x]) st.
Proof.
  intros X. revert st. induction pre as [|l pre IH]; intros st.
  - cbn [app]. rewrite !main_loop_cons.
    rewrite (loop_body_command env _ _ (exit_line_is_command _ X)).
    fold (is_exit_line x). now rewrite X.
  - cbn [app]. rewrite !main_loop_cons.
    destruct (loop_body env l _) as [[] s|? ?|?|s]; try reflexivity. apply IH.
Qed.

End LoopEnd.

Lemma lines_after_exit_are_not_read_witness :
  main_loop demo_env (["/video"; " "] ++ " /Exit " :: ["https://youtu.be/x"; "/sound"])
            (demo_state "S")
  = main_loop demo_env (["/video"; " "] ++ [" /Exit "]) (demo_state "S").
Proof.
  exact (lines_after_exit_are_not_read demo_env ["/video"; " "] " /Exit "
           ["https://youtu.be/x"; "/sound"] (demo_state "S") eq_refl).
Defined.

(** ** The lines the main loop passes on *)

Section LoopLinks.

Variable env : Env.

Lemma no_call_filter (evs : list Event) :
  forallb (fun e => negb (is_call e)) evs = true -> filter is_call evs = [].
Proof.
  induction evs as [|e evs IH]; cbn [forallb filter]; intros H; [reflexivity|].
  apply andb_true_iff in H as [He H]. apply negb_true_iff in He.
  rewrite He. exact (IH H).
Qed.

Lemma thread_is_no_call (e : Event) : is_thread e = true -> negb (is_call e) = true.
Proof. now destruct e. Qed.

(** The turn of the loop on a link: it enters [_download_video] on the
    stripped line, first thing, and no download operation after that. *)
Lemma loop_body_link (line : string) (st : State) :
  (PyStr.strip line =? EmptyString) = false ->
  is_command line = false ->
  exists evs,
    trace (final_state (loop_body env line st))
    = (trace st ++ Call_download_video (PyStr.strip line) "ko" :: evs)%list
    /\ forallb (fun e => negb (is_call e)) evs = true.
Proof.
  intros N C. rewrite (loop_body_url env _ _ C N).
  set (k := mode <- get_mode;;
            print (nl ++ "Current mode: " ++ mode_name mode);; ret Continue).
  assert (K : keeps true (fun e => negb (is_call e))
                (download_video_body env (PyStr.strip line) "ko";; k)).
  { apply keeps_bind;
      [apply keeps_download_video_body; try reflexivity; apply thread_is_no_call
      | intros _].
    unfold k. apply keeps_bind; [apply keeps_get_mode | intros m].
    apply keeps_bind; [now apply keeps_log | intros; apply keeps_ret]. }
  destruct (K (emit [Call_download_video (PyStr.strip line) "ko"] st))
    as [_ (evs & T & O)].
  exists evs. split; [|exact O].
  change ((_download_video env (PyStr.strip line) "ko";; k) st)
    with ((download_video_body env (PyStr.strip line) "ko";; k)
            (emit [Call_download_video (PyStr.strip line) "ko"] st)).
  rewrite T. cbn [emit trace]. now rewrite <- app_assoc.
Qed.

(** The download operations a turn of the loop enters. *)
Lemma loop_body_calls (line : string) (st : State) :
  exists evs,
    trace (final_state (loop_body env line st)) = (trace st ++ evs)%list
    /\ filter is_call evs
       = if is_command line || (PyStr.strip line =? EmptyString) then []
         else [Call_download_video (PyStr.strip line) "ko"].
Proof.
  destruct (is_command line) eqn:C; cbn [orb].
  - rewrite (loop_body_command env _ _ C). eexists. split; reflexivity.
  - destruct (PyStr.strip line =? EmptyString) eqn:E.
    + apply String.eqb_eq in E. rewrite (loop_body_blank env _ _ C E).
      exists []. cbn. now rewrite app_nil_r.
    + destruct (loop_body_link line st E C) as (evs & T & O).
      exists (Call_download_video (PyStr.strip line) "ko" :: evs). split; [exact T|].
      cbn [filter is_call is_video_call orb]. now rewrite (no_call_filter _ O).
Qed.

(** The download operations the loop enters, in order: [_download_video]
    on each link among the lines, up to a download that blocks. *)
Lemma main_loop_calls (stdin : list string) (st : State) :
  exists evs,
    trace (final_state (main_loop env stdin st)) = (trace st ++ evs)%list
    /\ (exists k, filter is_call evs = video_calls (firstn k (links_read stdin)))
    /\ (is_hang (main_loop env stdin st) = false ->
        filter is_call evs = video_calls (links_read stdin)).
Proof.
  revert st. induction stdin as [|line rest IH]; intros st.
  - eexists. split; [reflexivity|]. split; [now exists 0 | reflexivity].
  - rewrite main_loop_cons.
    set (st1 := emit [Prompt (nl ++ "Enter YouTube URL or command: ")] st).
    destruct (loop_body_calls line st1) as (e1 & T1 & F1).
    assert (O := loop_body_outcome env line st1).
    cbn [links_read].
    destruct (loop_body env line st1) as [[] s|? ?|?|s]; try contradiction;
      cbn [final_state] in T1.
    + rewrite O. destruct (IH s) as (e2 & T2 & [k Fk] & Fa).
      exists (Prompt (nl ++ "Enter YouTube URL or command: ") :: e1 ++ e2)%list.
      split; [rewrite T2, T1; unfold st1; cbn [emit trace];
              now rewrite <- !app_assoc|].
      cbn [filter is_call is_video_call is_playlist_call orb].
      rewrite filter_app, F1.
      destruct (is_command line || (PyStr.strip line =? EmptyString)); cbn [app].
      * split; [now exists k | exact Fa].
      * split; [exists (S k); cbn [firstn video_calls map]; now rewrite Fk|].
        intros H. cbn [video_calls map]. now rewrite (Fa H).
    + rewrite O.
      exists (Prompt (nl ++ "Enter YouTube URL or command: ") :: e1)%list.
      split; [cbn [final_state]; rewrite T1; unfold st1; cbn [emit trace];
              now rewrite <- !app_assoc|].
      cbn [filter is_call is_video_call is_playlist_call orb].
      rewrite F1, (exit_line_is_command _ O). cbn [orb].
      split; [now exists 0 | reflexivity].
    + rewrite O.
      exists (Prompt (nl ++ "Enter YouTube URL or command: ") :: e1)%list.
      split; [cbn [final_state]; rewrite T1; unfold st1; cbn [emit trace];
              now rewrite <- !app_assoc|].
      cbn [filter is_call is_video_call is_playlist_call orb]. rewrite F1.
      split; [|discriminate].
      destruct (is_command line || (PyStr.strip line =? EmptyString));
        [now exists 0 | now exists 1].
Qed.

Lemma print_instructions_returns (st : State) :
  exists s, _print_instructions st = Ret tt s.
Proof. eexists. reflexivity. Qed.

(** The same of a whole run, on the lines the dependency check leaves. *)
Lemma run_calls (stdin : list string) (st : State) :
  match _check_dependencies env stdin st with
  | Ret rest _ =>
      (exists k, filter is_call (new_events st (run env stdin st))
                 = video_calls (firstn k (links_read rest)))
      /\ (is_hang (run env stdin st) = false ->
          filter is_call (new_events st (run env stdin st))
          = video_calls (links_read rest))
  | _ => filter is_call (new_events st (run env stdin st)) = []
  end.
Proof.
  assert (K : keeps false (fun e => negb (is_call e)) (_check_dependencies env stdin))
    by now apply keeps_check_dependencies.
  destruct (K st) as [_ (e0 & T0 & O0)]. apply no_call_filter in O0.
  assert (E : run env stdin st
              = match _check_dependencies env stdin st with
                | Ret rest st1 =>
                    match _print_instructions st1 with
                    | Ret _ st2 => main_loop env rest st2
                    | Raise e s => Raise e s
                    | SysExit s => SysExit s
                    | Hang s => Hang s
                    end
                | Raise e s => Raise e s
                | SysExit s => SysExit s
                | Hang s => Hang s
                end) by reflexivity.
  rewrite E. clear E.
  destruct (_check_dependencies env stdin st) as [rest st1|? ?|?|?];
    try (rewrite (new_events_app st _ e0); [exact O0 | exact T0]).
  cbn [final_state] in T0.
  assert (K1 : keeps false (fun e => negb (is_call e)) _print_instructions)
    by now apply keeps_print_instructions.
  destruct (K1 st1) as [_ (e1 & T1 & O1)]. apply no_call_filter in O1.
  destruct (print_instructions_returns st1) as [st2 P]. rewrite P in T1 |- *.
  cbn [final_state] in T1.
  destruct (main_loop_calls rest st2) as (e2 & T2 & Fk & Fa).
  assert (N : new_events st (main_loop env rest st2) = (e0 ++ e1 ++ e2)%list).
  { apply new_events_app. rewrite T2, T1, T0. now rewrite <- !app_assoc. }
  rewrite N, !filter_app, O0, O1. exact (conj Fk Fa).
Qed.

Lemma links_read_app (pre : list string) (line : string) (post : list string) :
  (PyStr.strip line =? EmptyString) = false ->
  is_command line = false ->
  existsb is_exit_line pre = false ->
  links_read (pre ++ line :: post)
  = (links_read pre ++ PyStr.strip line :: links_read post)%list.
Proof.
  intros N C. induction pre as [|l pre IH]; cbn [app links_read existsb]; intros X.
  - now rewrite (not_command_not_exit _ C), C, N.
  - apply orb_false_iff in X as [Xl X]. rewrite Xl.
    destruct (is_command l || (PyStr.strip l =? EmptyString)); cbn [app];
      now rewrite (IH X).
Qed.

End LoopLinks.

(** C5. A line that, stripped, is not empty and is not one of the three
    commands is passed, stripped, to [_download_video]: the first thing
    the turn of the loop does is enter [_download_video] on it, and it
    enters no download operation again.  Whatever the lines, a run of
    the program never enters [_download_playlist].  And these turns are
    the loop's: a line that comes before any [/exit] is one of the links
    of the input, and the download operations the main loop enters are,
    in order, [_download_video] on the links of its input, all of them
    unless a download blocks and then those up to it; the same holds of
    a whole run, on the lines the dependency check leaves. *)
Theorem url_goes_to_download_video (env : Env) (line : string) (st : State) :
  (PyStr.strip line =? EmptyString) = false ->
  is_command line = false ->
  (exists evs,
     new_events st (loop_body env line st)
     = Call_download_video (PyStr.strip line) "ko" :: evs
     /\ forallb (fun e => negb (is_call e)) evs = true)
  /\ (forall stdin st0,
        forallb (fun e => negb (is_playlist_call e))
                (new_events st0 (run env stdin st0)) = true)
  /\ (forall pre post,
        existsb is_exit_line pre = false ->
        links_read (pre ++ line :: post)
        = (links_read pre ++ PyStr.strip line :: links_read post)%list)
  /\ (forall stdin st0,
        (exists k, filter is_call (new_events st0 (main_loop env stdin st0))
                   = video_calls (firstn k (links_read stdin)))
        /\ (is_hang (main_loop env stdin st0) = false ->
            filter is_call (new_events st0 (main_loop env stdin st0))
            = video_calls (links_read stdin)))
  /\ (forall stdin st0,
        match _check_dependencies env stdin st0 with
        | Ret rest _ =>
            (exists k, filter is_call (new_events st0 (run env stdin st0))
                       = video_calls (firstn k (links_read rest)))
            /\ (is_hang (run env stdin st0) = false ->
                filter is_call (new_events st0 (run env stdin st0))
                = video_calls (links_read rest))
        | _ => filter is_call (new_events st0 (run env stdin st0)) = []
        end).
Proof.
  intros N C. split; [|split; [|split; [|split]]].
  - destruct (loop_body_link env line st N C) as (evs & T & O).
    exists evs. split; [now apply new_events_app | exact O].
  - intros stdin st0. apply (keeps_new_events false).
    apply keeps_run; try reflexivity. now intros [].
  - intros pre post. now apply links_read_app.
  - intros stdin st0. destruct (main_loop_calls env stdin st0) as (evs & T & Fk & Fa).
    now rewrite (new_events_app _ _ _ T).
  - apply run_calls.
Qed.

Lemma url_goes_to_download_video_witness :
  (exists evs,
     new_events (demo_state "S")
                (loop_body demo_env "  https://youtu.be/dQw4w9WgXcQ " (demo_state "S"))
     = Call_download_video "https://youtu.be/dQw4w9WgXcQ" "ko" :: evs
     /\ forallb (fun e => negb (is_call e)) evs = true)
  /\ filter is_call
       (new_events (demo_state "S")
          (main_loop demo_env
             ["/video"; "  https://youtu.be/dQw4w9WgXcQ "; " ";
              "https://youtu.be/x"; "/exit"; "https://youtu.be/y"]
             (demo_state "S")))
     = [Call_download_video "https://youtu.be/dQw4w9WgXcQ" "ko";
        Call_download_video "https://youtu.be/x" "ko"].
Proof.
  pose (W := url_goes_to_download_video demo_env
               "  https://youtu.be/dQw4w9WgXcQ " (demo_state "S") eq_refl eq_refl).
  split; [exact (proj1 W)|].
  exact (proj2 (proj1 (proj2 (proj2 (proj2 W)))
                  ["/video"; "  https://youtu.be/dQw4w9WgXcQ "; " ";
                   "https://youtu.be/x"; "/exit"; "https://youtu.be/y"]
                  (demo_state "S")) eq_refl).
Defined.

(** ** [_check_dependencies] *)

Lemma ask_exit_outcome (stdin : list string) (st : State) :
  match ask_exit stdin st with
  | Ret rest _ => exists answer, stdin = answer :: rest /\ PyStr.lower answer <> "y"
  | SysExit _ => exists answer rest, stdin = answer :: rest /\ PyStr.lower answer = "y"
  | Raise e _ => stdin = [] /\ e = "EOF when reading a line"
  | Hang _ => False
  end.
Proof.
  unfold ask_exit, input, bind. cbn [log].
  destruct stdin as [|answer rest]; cbn [ret raise fst snd]; [now split|].
  destruct (String.eqb_spec (PyStr.lower answer) "y") as [E|E]; cbn [sys_exit ret].
  - now exists answer, rest.
  - now exists answer.
Qed.

(** X13. With the Python packages importable, the dependency check does
    nothing when the encoder is on the path; when it is not, it reads one
    line and ends the process exactly when that line, in lower case, is
    [y] (white space is not stripped here); any other answer lets the
    program go on with the remaining lines, and no line to read is the
    end-of-input error. *)
Theorem dependency_check_exits_on_y_only (env : Env) (stdin : list string) (st : State) :
  env_import_ok env "pytubefix" = true ->
  env_import_ok env "tqdm" = true ->
  match _check_dependencies env stdin st with
  | Ret rest st' =>
      if env_which_ffmpeg env then rest = stdin /\ st' = st
      else exists answer, stdin = answer :: rest /\ PyStr.lower answer <> "y"
  | SysExit _ =>
      env_which_ffmpeg env = false
      /\ exists answer rest, stdin = answer :: rest /\ PyStr.lower answer = "y"
  | Raise e _ =>
      env_which_ffmpeg env = false /\ stdin = [] /\ e = "EOF when reading a line"
  | Hang _ => False
  end.
Proof.
  intros P T. unfold _check_dependencies. rewrite P, T. cbn [app].
  destruct (env_which_ffmpeg env).
  - unfold bind, ret. now split.
  - unfold bind. cbn [print log].
    match goal with
    | |- context [ask_exit stdin ?s] =>
        assert (A := ask_exit_outcome stdin s); destruct (ask_exit stdin s)
    end; cbn [ret].
    + exact A.
    + destruct A as [-> ->]. now repeat split.
    + now split.
    + exact A.
Qed.

Lemma dependency_check_exits_on_y_only_witness :
  (exists answer rest, ["Y"; "/exit"] = answer :: rest /\ PyStr.lower answer = "y")
  /\ (exists answer, [" y"; "/exit"] = answer :: ["/exit"] /\ PyStr.lower answer <> "y").
Proof.
  split.
  - exact (proj2 (dependency_check_exits_on_y_only offline_env ["Y"; "/exit"]
                    (demo_state "S") eq_refl eq_refl)).
  - exact (dependency_check_exits_on_y_only offline_env [" y"; "/exit"]
             (demo_state "S") eq_refl eq_refl).
Defined.

(** ** The polling of the progress log *)

(** X14. When the polling thread finds nothing new to read does not
    matter: the amounts displayed, the final state of the bar and whether
    the routine has returned are the same with the empty reads left out. *)
Theorem empty_reads_do_not_matter (pbar : Pbar) (reads : list string) :
  displayed (_update_ffmpeg_progress pbar (nonblank_reads reads))
  = displayed (_update_ffmpeg_progress pbar reads)
  /\ pbar_of (_update_ffmpeg_progress pbar (nonblank_reads reads))
     = pbar_of (_update_ffmpeg_progress pbar reads)
  /\ finished (_update_ffmpeg_progress pbar (nonblank_reads reads))
     = finished (_update_ffmpeg_progress pbar reads).
Proof.
  revert pbar. induction reads as [|line reads IH]; intros pbar; [now repeat split|].
  cbn [nonblank_reads filter]. fold (nonblank_reads reads).
  destruct (String.eqb_spec line EmptyString) as [->|N]; cbn [negb].
  - cbn [_update_ffmpeg_progress progress_turn String.eqb].
    cbn [displayed pbar_of finished]. apply IH.
  - cbn [_update_ffmpeg_progress].
    destruct (progress_turn line pbar) as [pbar' u z| |e]; try now repeat split.
    cbn [displayed pbar_of finished].
    destruct (IH pbar') as (-> & -> & ->). now repeat split.
Qed.

(** ** Failures of the encoder in sound mode *)

(** X15. In sound mode, when the audio is read and the encoder then
    exits with a code other than 0, or cannot be started, the operation
    returns; the encoder was run once, on the sound command, and the last
    thing printed is the failure: the encoder's error output in the
    first case, the exception in the second. *)
Theorem sound_encoder_failure_is_reported
    (env : Env) (url lang : string) (yt : YouTubeObj) (raw_title msg : string)
    (st : State) :
  let title := _sanitize_filename raw_title in
  let r := _download_video env url lang st in
  resolved env url = Some (yt, raw_title) ->
  self_mode st = "S" ->
  sound_encoder_fails env yt title (self_path st) = Some msg ->
  returned r = true
  /\ trace (final_state r)
     = (trace (after_captions yt raw_title url lang st)
        ++ [Print "Streaming audio to ffmpeg for MP3 conversion...";
            Exec (sound_command (mp3_of (self_path st) title));
            Print msg])%list.
Proof.
  intros title r R Hm H. subst r title.
  assert (E : exists s,
             _download_video env url lang st = Ret tt s
             /\ trace s
                = (trace (after_captions yt raw_title url lang st)
                   ++ [Print "Streaming audio to ffmpeg for MP3 conversion...";
                       Exec (sound_command
                               (mp3_of (self_path st) (_sanitize_filename raw_title)));
                       Print msg])%list).
  { rewrite (download_video_reaches_mode_branch _ _ _ _ _ _ R).
    unfold try_except at 1. rewrite mode_branch_sound by exact Hm.
    unfold sound_encoder_fails in H.
    set (s0 := after_captions yt raw_title url lang st).
    change (self_path st) with (self_path s0) in H |- *.
    unfold sound_branch. unfold bind at 1.
    destruct (yt_audio_only yt) as [[s|]|]; try discriminate H. cbn [lift ret].
    destruct (yt_length yt) as [len|]; try discriminate H.
    destruct (stream_to_buffer s) as [buf|]; try discriminate H.
    unfold bind at 1. cbn [print log].
    unfold bind at 1. cbn [lift ret].
    unfold bind at 1. cbn [get_path self_path].
    unfold bind at 1. cbn [lift ret]. cbv zeta.
    unfold try_except, run_convert.
    unfold bind at 1. unfold bind at 1. cbn [log].
    unfold mp3_of in H |- *.
    destruct (ffmpeg env _) as [e| |rc err progress]; try discriminate H.
    - inversion H; subst msg. cbn [raise print log].
      eexists. split; [reflexivity|]. cbn [trace]. now rewrite <- !app_assoc.
    - destruct (rc =? 0)%Z eqn:Z; [discriminate H|]. inversion H; subst msg.
      unfold bind at 1. cbn [ret fst snd]. rewrite Z. cbn [print log].
      eexists. split; [reflexivity|]. cbn [trace]. now rewrite <- !app_assoc. }
  destruct E as (s & -> & T). split; [reflexivity | exact T].
Qed.

Lemma sound_encoder_failure_is_reported_witness :
  let r := _download_video failing_encoder_env "https://youtu.be/x" "ko" (demo_state "S") in
  returned r = true
  /\ trace (final_state r)
     = (trace (after_captions demo_yt "AC/DC: Live?" "https://youtu.be/x" "ko"
                 (demo_state "S"))
        ++ [Print "Streaming audio to ffmpeg for MP3 conversion...";
            Exec (sound_command "/home/user/Downloads/ACDC Live.mp3");
            Print "Error during ffmpeg conversion: Invalid data found when processing input"])%list.
Proof.
  exact (sound_encoder_failure_is_reported failing_encoder_env "https://youtu.be/x" "ko"
           _ _ _ (demo_state "S") eq_refl eq_refl eq_refl).
Defined.

(** ** Where the files go *)

(** X16. Whatever the title of the video, the output file and the two
    temporary files are where the program means them to be: each path is
    the download directory (followed by a slash unless it ends with one),
    then [.temp/] for the temporary files, then a file name that holds no
    slash, so that a title cannot lead out of the download directory. *)
Theorem title_cannot_leave_download_directory (path raw_title : string) :
  let title := _sanitize_filename raw_title in
  mp3_of path title = dir_prefix path ++ (title ++ ".mp3")
  /\ mp4_of path title = dir_prefix path ++ (title ++ ".mp4")
  /\ video_filepath_of path title = dir_prefix path ++ ".temp/" ++ (title ++ "_video.mp4")
  /\ audio_filepath_of path title = dir_prefix path ++ ".temp/" ++ (title ++ "_audio.mp4")
  /\ PyStr.has_char "/" (title ++ ".mp3") = false
  /\ PyStr.has_char "/" (title ++ ".mp4") = false
  /\ PyStr.has_char "/" (title ++ "_video.mp4") = false
  /\ PyStr.has_char "/" (title ++ "_audio.mp4") = false.
Proof.
  intros title. subst title.
  split; [now apply output_path_shape|]. split; [now apply output_path_shape|].
  split; [apply video_filepath_shape|]. split; [apply audio_filepath_shape|].
  repeat split; rewrite has_char_app, sanitized_no_slash; reflexivity.
Qed.
